(** * Frankenstein: the decision pipeline and its proof ledger

    A shallow embedding of the Python sources [proof_ledger.py],
    [axiom_kernel.py], [truth_validator.py], [contradiction_engine.py] and
    [frankenstein_core.py], with the properties of the hash chain, of the
    axiom gate, of the truth validator and of the override flag.

    Conventions.
    - A Python [str] is the list of its code points ([list N]); an [int] is a
      [Z] (lengths, [str.find]) or a [nat] (loop indices).
    - A [float] literal of the sources (severities, confidences, the
      threshold) is the rational it denotes; the sources only compare such
      literals and print them.
    - Objects are records; a method takes the object's state and returns the
      new state next to its result.
    - [datetime.utcnow().isoformat()] is an input: every function that reads
      the clock takes the reading as an argument named [now].
    - The SHA-256 digest and the Unicode tables behind [str.lower] and
      [str.isalnum] belong to the Python runtime; they are parameters
      (classes [Sha256] and [UnicodeData]). *)

From Stdlib Require Import NArith ZArith QArith List String Ascii Bool Lia.
From Stdlib Require Import DecimalString.
From stdpp Require Import base decidable option list countable gmap.

Close Scope Q_scope.
Local Open Scope list_scope.

Abbreviation pystr := (list N).

(** ** Python's [str] operations *)
Module PyStr.

(** A literal of the sources (ASCII only). *)
Definition py (s : string) : pystr :=
  map N_of_ascii (list_ascii_of_string s).

(** [len(s)] *)
Definition len {A} (s : list A) : Z := Z.of_nat (length s).

(** [s.startswith(pre)] *)
Fixpoint startswith (pre s : pystr) : bool :=
  match pre, s with
  | [], _ => true
  | _ :: _, [] => false
  | a :: pre', b :: s' => bool_decide (a = b) && startswith pre' s'
  end.

(** [sub in s] *)
Fixpoint contains (sub s : pystr) : bool :=
  startswith sub s ||
  match s with
  | [] => false
  | _ :: s' => contains sub s'
  end.

(** [s.find(sub)]: the lowest index where [sub] starts, or -1. *)
Fixpoint find_from (i : Z) (sub s : pystr) : Z :=
  if startswith sub s then i
  else match s with
       | [] => (-1)%Z
       | _ :: s' => find_from (i + 1)%Z sub s'
       end.

Definition find (s sub : pystr) : Z := find_from 0%Z sub s.

(** [s[:n]] for an [n] that is not negative. *)
Definition slice_to (s : pystr) (n : Z) : pystr := take (Z.to_nat n) s.

(** [s.replace(old, new)]: the occurrences of [old] are replaced from the
    left and do not overlap; [skip] counts the code points of a matched
    occurrence that are still to be dropped. *)
Fixpoint replace_go (old new : pystr) (skip : nat) (s : pystr) : pystr :=
  match s with
  | [] => []
  | c :: s' =>
      match skip with
      | S k => replace_go old new k s'
      | O =>
          if startswith old s
          then new ++ replace_go old new (length old - 1) s'
          else c :: replace_go old new 0 s'
      end
  end.

Definition replace (s old new : pystr) : pystr :=
  match old with
  | [] => new ++ flat_map (fun c => c :: new) s
  | _ :: _ => replace_go old new 0 s
  end.

(** [s.split(sep, 1)] for a [sep] that is not empty: [[s]] when [sep] does
    not occur, else what is before and what is after its first
    occurrence. *)
Fixpoint split_once_go (sep acc s : pystr) : list pystr :=
  if startswith sep s then [rev acc; drop (length sep) s]
  else match s with
       | [] => [rev acc]
       | c :: s' => split_once_go sep (c :: acc) s'
       end.

Definition split_once (s sep : pystr) : list pystr := split_once_go sep [] s.

(** The code points [str.strip()] removes: those of [str.isspace]. *)
Definition isspace (c : N) : bool :=
  ((9 <=? c) && (c <=? 13) || (28 <=? c) && (c <=? 32)
   || (c =? 133) || (c =? 160) || (c =? 5760)
   || (8192 <=? c) && (c <=? 8202)
   || (c =? 8232) || (c =? 8233) || (c =? 8239) || (c =? 8287)
   || (c =? 12288))%N.

Fixpoint lstrip (s : pystr) : pystr :=
  match s with
  | [] => []
  | c :: s' => if isspace c then lstrip s' else s
  end.

Definition rstrip (s : pystr) : pystr := rev (lstrip (rev s)).

(** [s.strip()] *)
Definition strip (s : pystr) : pystr := rstrip (lstrip s).

(** The runtime's Unicode tables. [unicode_lower] is [str.lower] on a
    string that has a code point outside ASCII, [unicode_isalnum] is
    [str.isalnum] on such a code point. *)
Class UnicodeData := {
  unicode_lower : pystr -> pystr;
  unicode_isalnum : N -> bool
}.

Definition is_ascii (c : N) : bool := (c <? 128)%N.

Definition ascii_lower (c : N) : N :=
  if ((65 <=? c) && (c <=? 90))%N then (c + 32)%N else c.

(** [s.lower()] *)
Definition lower {unicode : UnicodeData} (s : pystr) : pystr :=
  if forallb is_ascii s then map ascii_lower s else unicode_lower s.

(** [c.isalnum()] *)
Definition isalnum {unicode : UnicodeData} (c : N) : bool :=
  if is_ascii c
  then ((48 <=? c) && (c <=? 57) || (65 <=? c) && (c <=? 90)
        || (97 <=? c) && (c <=? 122))%N
  else unicode_isalnum c.

(** [str(n)] for an [int] that is not negative. *)
Definition str_of_nat (n : nat) : pystr :=
  py (NilEmpty.string_of_uint (Nat.to_uint n)).

(** [sep.join(parts)] *)
Fixpoint join (sep : pystr) (parts : list pystr) : pystr :=
  match parts with
  | [] => []
  | [p] => p
  | p :: ps => p ++ sep ++ join sep ps
  end.

End PyStr.

Import PyStr.

(** ** [json.dumps] on the values the ledger encodes *)
Module Json.

(** One lowercase hexadecimal digit. *)
Definition hex_digit (n : N) : N :=
  if (n <? 10)%N then (48 + n)%N else (87 + n)%N.

(** ['{0:04x}'.format(n)] for [n < 0x10000]. *)
Definition hex4 (n : N) : pystr :=
  [hex_digit (n / 4096 mod 16); hex_digit (n / 256 mod 16);
   hex_digit (n / 16 mod 16); hex_digit (n mod 16)]%N.

Definition u_escape (n : N) : pystr := py "\u" ++ hex4 n.

(** The replacement of one code point in [encode_basestring_ascii]
    ([ensure_ascii] is on by default): the quote and the backslash are
    escaped, printable ASCII is kept, the named control characters have
    their short form, every other code point below 0x10000 is written
    [\uXXXX] and a code point from 0x10000 on as a surrogate pair. *)
Definition escape (c : N) : pystr :=
  if (c =? 34)%N then [92; 34]%N
  else if (c =? 92)%N then [92; 92]%N
  else if ((32 <=? c) && (c <=? 126))%N then [c]
  else if (c =? 8)%N then py "\b"
  else if (c =? 12)%N then py "\f"
  else if (c =? 10)%N then py "\n"
  else if (c =? 13)%N then py "\r"
  else if (c =? 9)%N then py "\t"
  else if (c <? 65536)%N then u_escape c
  else
    let n := (c - 65536)%N in
    let s1 := N.lor 55296 (N.land (N.shiftr n 10) 1023) in
    let s2 := N.lor 56320 (N.land n 1023) in
    u_escape s1 ++ u_escape s2.

(** [json.dumps(s)] for a [str]. *)
Definition dumps_str (s : pystr) : pystr :=
  [34%N] ++ flat_map escape s ++ [34%N].

(** The values of the ledger's dictionaries: [None], a [str], a list of
    [str]. *)
Inductive value :=
| Null
| Str (s : pystr)
| Arr (items : list pystr).

Definition dumps_value (v : value) : pystr :=
  match v with
  | Null => py "null"
  | Str s => dumps_str s
  | Arr items => py "[" ++ join (py ", ") (map dumps_str items) ++ py "]"
  end.

(** The order of [str] values: lexicographic on the code points. *)
Fixpoint str_le (a b : pystr) : bool :=
  match a, b with
  | [], _ => true
  | _ :: _, [] => false
  | x :: a', y :: b' => (x <? y)%N || ((x =? y)%N && str_le a' b')
  end.

Fixpoint insert_item (kv : pystr * value) (d : list (pystr * value))
  : list (pystr * value) :=
  match d with
  | [] => [kv]
  | kv' :: d' =>
      if str_le (fst kv) (fst kv') then kv :: d else kv' :: insert_item kv d'
  end.

(** [sorted(d.items())] for a dictionary whose keys are distinct. *)
Definition sort_items (d : list (pystr * value)) : list (pystr * value) :=
  foldr insert_item [] d.

(** [json.dumps(d, sort_keys=True)] for a dictionary with [str] keys. *)
Definition dumps_sorted (d : list (pystr * value)) : pystr :=
  py "{" ++
  join (py ", ")
       (map (fun kv => dumps_str (fst kv) ++ py ": " ++ dumps_value (snd kv))
            (sort_items d))
  ++ py "}".

End Json.

(** ** proof_ledger.py *)
Module ProofLedger.

(** [hashlib.sha256(data.encode('utf-8')).hexdigest()]. The ledger applies
    it to its ASCII genesis label and to the output of [json.dumps], which
    is ASCII, so the UTF-8 encoding never fails. *)
Class Sha256 := sha256_hexdigest : pystr -> pystr.

(** The frozen dataclass [ProofRecord]; the tuples are lists. *)
Record ProofRecord := {
  timestamp : pystr;
  premises : list pystr;
  inference_steps : list pystr;
  conclusion : pystr;
  counterexample : option pystr;
  hash : pystr;
  prev_hash : option pystr
}.

#[global] Instance ProofRecord_eq_dec : EqDecision ProofRecord.
Proof. solve_decision. Defined.

(** The dictionary of [ProofRecord.to_dict], as the items the callers
    read. *)
Record RecordDict := {
  d_timestamp : pystr;
  d_premises : list pystr;
  d_inference_steps : list pystr;
  d_conclusion : pystr;
  d_counterexample : option pystr;
  d_hash : pystr;
  d_prev_hash : option pystr
}.

Definition to_dict (r : ProofRecord) : RecordDict :=
  {| d_timestamp := timestamp r;
     d_premises := premises r;
     d_inference_steps := inference_steps r;
     d_conclusion := conclusion r;
     d_counterexample := counterexample r;
     d_hash := hash r;
     d_prev_hash := prev_hash r |}.

(** The state of a [ProofLedger] object. *)
Record ProofLedger := {
  _records : list ProofRecord;
  _genesis_hash : pystr
}.

Definition opt_value (o : option pystr) : Json.value :=
  match o with
  | None => Json.Null
  | Some s => Json.Str s
  end.

(** The text both [append] and [verify_integrity] hash: [json.dumps] with
    [sort_keys=True] of the six hashed fields. *)
Definition record_data (timestamp : pystr) (premises inference_steps : list pystr)
    (conclusion : pystr) (counterexample prev_hash : option pystr) : pystr :=
  Json.dumps_sorted
    [ (py "timestamp", Json.Str timestamp);
      (py "premises", Json.Arr premises);
      (py "inference_steps", Json.Arr inference_steps);
      (py "conclusion", Json.Str conclusion);
      (py "counterexample", opt_value counterexample);
      (py "prev_hash", opt_value prev_hash) ].

Section WithDigest.
Context {digest : Sha256}.

Definition _compute_hash (data : pystr) : pystr := sha256_hexdigest data.

(** [ProofLedger.__init__] *)
Definition new_ledger : ProofLedger :=
  {| _records := [];
     _genesis_hash := _compute_hash (py "GENESIS_FRANKENSTEIN_DIVINE_LOGIC") |}.

(** [ProofLedger.append]; [now] is the clock reading. Returns the ledger
    after the call and the record created. *)
Definition append (l : ProofLedger) (now : pystr)
    (premises inference_steps : list pystr) (conclusion : pystr)
    (counterexample : option pystr) : ProofLedger * ProofRecord :=
  let timestamp := now in
  let prev_hash :=
    match last (_records l) with
    | Some r => hash r
    | None => _genesis_hash l
    end in
  let record_data :=
    record_data timestamp premises inference_steps conclusion counterexample
                (Some prev_hash) in
  let record_hash := _compute_hash record_data in
  let record :=
    {| timestamp := timestamp;
       premises := premises;
       inference_steps := inference_steps;
       conclusion := conclusion;
       counterexample := counterexample;
       hash := record_hash;
       prev_hash := Some prev_hash |} in
  ({| _records := _records l ++ [record]; _genesis_hash := _genesis_hash l |},
   record).

(** The loop of [verify_integrity]: [prev_hash] is the running expected
    hash and [i] the index of [enumerate]. *)
Fixpoint verify_loop (prev_hash : pystr) (i : nat) (records : list ProofRecord)
  : bool * pystr :=
  match records with
  | [] => (true, py "Ledger integrity verified")
  | record :: rest =>
      if bool_decide (ProofLedger.prev_hash record <> Some prev_hash)
      then (false, py "Chain broken at record " ++ str_of_nat i)
      else
        let record_data :=
          record_data (timestamp record) (premises record)
                      (inference_steps record) (conclusion record)
                      (counterexample record) (ProofLedger.prev_hash record) in
        let expected_hash := _compute_hash record_data in
        if bool_decide (hash record <> expected_hash)
        then (false,
              py "Record " ++ str_of_nat i
                 ++ py " hash mismatch - content tampered")
        else verify_loop (hash record) (S i) rest
  end.

(** [ProofLedger.verify_integrity] *)
Definition verify_integrity (l : ProofLedger) : bool * pystr :=
  match _records l with
  | [] => (true, py "Empty ledger is valid")
  | _ :: _ => verify_loop (_genesis_hash l) 0 (_records l)
  end.

(** [ProofLedger.get_records]: a deep copy, the same value. *)
Definition get_records (l : ProofLedger) : list ProofRecord := _records l.

(** [ProofLedger.get_record_count] *)
Definition get_record_count (l : ProofLedger) : Z := len (_records l).

End WithDigest.

End ProofLedger.

(** ** axiom_kernel.py *)
Module AxiomKernel.

Inductive LogicalLaw :=
| IDENTITY
| NON_CONTRADICTION
| EXCLUDED_MIDDLE
| CAUSALITY.

Inductive SurvivalAxiom :=
| COLLECTIVE_COHERENCE
| SYSTEMIC_BALANCE
| COOPERATION_OVER_EXTRACTION.

(** The state of an [AxiomKernel] object; the two sets list the members
    of their enumerations. *)
Record AxiomKernel := {
  _logical_laws : list LogicalLaw;
  _survival_axioms : list SurvivalAxiom;
  _immutable : bool
}.

(** [AxiomKernel.__init__] *)
Definition new_kernel : AxiomKernel :=
  {| _logical_laws := [IDENTITY; NON_CONTRADICTION; EXCLUDED_MIDDLE; CAUSALITY];
     _survival_axioms :=
       [COLLECTIVE_COHERENCE; SYSTEMIC_BALANCE; COOPERATION_OVER_EXTRACTION];
     _immutable := true |}.

(** [AxiomKernel.validate_against_axioms] on a [str]: the pair
    [(is_valid, reason)]. The method returns a value and assigns no
    attribute, so no state comes back. *)
Definition validate_against_axioms (self : AxiomKernel) (proposition : pystr)
  : bool * pystr :=
  if bool_decide (proposition = []) || bool_decide (strip proposition = [])
  then (false, py "Empty proposition violates identity")
  else if (len proposition >? 10000)%Z
  then (false, py "Proposition too long")
  else (true, py "Passes axiom validation").

(** [AxiomKernel.get_logical_laws]: a copy of the set. *)
Definition get_logical_laws (self : AxiomKernel) : list LogicalLaw :=
  _logical_laws self.

(** [AxiomKernel.get_survival_axioms]: a copy of the set. *)
Definition get_survival_axioms (self : AxiomKernel) : list SurvivalAxiom :=
  _survival_axioms self.

(** [AxiomKernel.is_immutable] *)
Definition is_immutable (self : AxiomKernel) : bool := _immutable self.

End AxiomKernel.

(** ** truth_validator.py *)
Module TruthValidator.

Inductive ValidationResult :=
| TRUE
| FALSE
| UNKNOWN
| CONTRADICTION.

#[global] Instance ValidationResult_eq_dec : EqDecision ValidationResult.
Proof. solve_decision. Defined.

Record ValidationResponse := {
  result : ValidationResult;
  confidence : Q;
  reasoning : pystr;
  evidence : list pystr
}.

(** The state of a [TruthValidator] object: the dictionary
    [_established_facts]. *)
Record TruthValidator := {
  _established_facts : gmap pystr ValidationResponse
}.

(** The dictionary [_parse_statement] returns, by its ["type"] item. *)
Inductive Parsed :=
| classification (subject predicate relation : pystr)
| mathematical (expression : pystr)
| physical (claim : pystr)
| general (content : pystr).

Definition cat_is_animal_fact : ValidationResponse :=
  {| result := TRUE; confidence := 1.0%Q;
     reasoning := py "Cats are mammals, mammals are animals";
     evidence := [py "biological taxonomy"; py "scientific classification"] |}.

Definition chair_is_furniture_fact : ValidationResponse :=
  {| result := TRUE; confidence := 1.0%Q;
     reasoning :=
       py "Chairs are designed objects for sitting, classified as furniture";
     evidence := [py "object classification"; py "functional definition"] |}.

Definition animal_not_furniture_fact : ValidationResponse :=
  {| result := TRUE; confidence := 1.0%Q;
     reasoning :=
       py "Animals are living beings, furniture are inanimate objects - mutually exclusive categories";
     evidence := [py "biological vs artificial classification"] |}.

(** [_load_core_facts] on the empty dictionary of [__init__]. *)
Definition _load_core_facts (facts : gmap pystr ValidationResponse)
  : gmap pystr ValidationResponse :=
  <[py "animal_not_furniture" := animal_not_furniture_fact]>
    (<[py "chair_is_furniture" := chair_is_furniture_fact]>
       (<[py "cat_is_animal" := cat_is_animal_fact]> facts)).

(** [TruthValidator.__init__] *)
Definition new_validator : TruthValidator :=
  {| _established_facts := _load_core_facts ∅ |}.

(** [_normalize_to_key] *)
Definition _normalize_to_key (statement : pystr) : pystr :=
  let statement :=
    replace (replace (replace statement (py "a ") []) (py "an ") [])
            (py "the ") [] in
  if contains (py "cat") statement && contains (py "animal") statement
     && contains (py "is") statement
  then py "cat_is_animal"
  else if contains (py "cat") statement && contains (py "chair") statement
          && contains (py "is") statement
  then py "cat_is_chair"
  else if contains (py "chair") statement && contains (py "furniture") statement
          && contains (py "is") statement
  then py "chair_is_furniture"
  else replace statement (py " ") (py "_").

Definition math_operators : list pystr :=
  [py "+"; py "-"; py "*"; py "/"; py "="; py "equals"].

Definition physical_keywords : list pystr :=
  [py "weighs"; py "measures"; py "temperature"; py "speed"; py "distance"].

(** The tail of [_parse_statement], after the [" is "] branch. *)
Definition parse_other (statement : pystr) : option Parsed :=
  if existsb (fun op => contains op statement) math_operators
  then Some (mathematical statement)
  else if existsb (fun keyword => contains keyword statement) physical_keywords
  then Some (physical statement)
  else Some (general statement).

(** [_parse_statement] *)
Definition _parse_statement (statement : pystr) : option Parsed :=
  if contains (py " is ") statement
  then
    match split_once statement (py " is ") with
    | [before; after] =>
        let subject :=
          replace (replace (strip before) (py "a ") []) (py "an ") [] in
        let predicate :=
          replace (replace (strip after) (py "a ") []) (py "an ") [] in
        Some (classification subject predicate (py "is"))
    | _ => parse_other statement
    end
  else parse_other statement.

(** [_get_category_facts]; the dictionary is read in the order of
    [map_to_list], the sources read it in insertion order. *)
Definition _get_category_facts (self : TruthValidator) (category : pystr)
  : list pystr :=
  omap (fun kv : pystr * ValidationResponse =>
          if contains category (fst kv)
             && bool_decide (result (snd kv) = TRUE)
          then Some (reasoning (snd kv)) else None)
       (map_to_list (_established_facts self)).

(** [_validate_classification] on the items of a classification. *)
Definition _validate_classification (self : TruthValidator)
    (subject predicate : pystr) : ValidationResponse :=
  let subject_facts := _get_category_facts self subject in
  let predicate_facts := _get_category_facts self predicate in
  if bool_decide (subject ∈ [py "cat"]) && bool_decide (predicate ∈ [py "animal"])
  then {| result := TRUE; confidence := 1.0%Q;
          reasoning := subject ++ py " is classified as " ++ predicate
                               ++ py " in biological taxonomy";
          evidence := [py "biological classification"] |}
  else if bool_decide (subject ∈ [py "cat"])
          && bool_decide (predicate ∈ [py "chair"; py "furniture"])
  then {| result := FALSE; confidence := 1.0%Q;
          reasoning := subject ++ py " is a living animal, " ++ predicate
                               ++ py " is an inanimate object - contradiction";
          evidence := [py "biological vs artificial classification";
                       py "living vs non-living"] |}
  else if bool_decide (subject ∈ [py "co2"])
          && contains (py "safe store") predicate
          && contains (py "oxygen") predicate
  then {| result := FALSE; confidence := 0.9%Q;
          reasoning :=
            py "CO2 is not a safe store of oxygen - oxygen in CO2 is bound to carbon and not bioavailable";
          evidence := [py "chemistry"; py "molecular structure"] |}
  else {| result := UNKNOWN; confidence := 0.3%Q;
          reasoning := py "Insufficient knowledge to validate: " ++ subject
                          ++ py " is " ++ predicate;
          evidence := [] |}.

(** [_validate_mathematical] *)
Definition _validate_mathematical (expression : pystr) : ValidationResponse :=
  if contains (py "5 + 5") expression || contains (py "5+5") expression
  then
    if contains (py "10") expression || contains (py "equals 10") expression
    then {| result := TRUE; confidence := 1.0%Q;
            reasoning := py "5 + 5 = 10 is mathematically correct";
            evidence := [py "arithmetic"] |}
    else {| result := FALSE; confidence := 1.0%Q;
            reasoning := py "5 + 5 does not equal the stated result";
            evidence := [py "arithmetic"] |}
  else {| result := UNKNOWN; confidence := 0.2%Q;
          reasoning :=
            py "Mathematical validation not implemented for this expression";
          evidence := [] |}.

(** [_validate_physical] *)
Definition _validate_physical (claim : pystr) : ValidationResponse :=
  {| result := UNKNOWN; confidence := 0.2%Q;
     reasoning := py "Physical validation system not fully implemented";
     evidence := [] |}.

(** [_simulate_llm_validation] *)
Definition _simulate_llm_validation (statement : pystr) : ValidationResponse :=
  {| result := UNKNOWN; confidence := 0.1%Q;
     reasoning :=
       py "LLM validation unavailable - using rule-based validation only";
     evidence := [py "no_llm"] |}.

Section WithUnicode.
Context {unicode : UnicodeData}.

(** [validate_statement]; it assigns no attribute. *)
Definition validate_statement (self : TruthValidator) (statement : pystr)
  : ValidationResponse :=
  let statement_lower := strip (lower statement) in
  let fact_key := _normalize_to_key statement_lower in
  match _established_facts self !! fact_key with
  | Some fact => fact
  | None =>
      match _parse_statement statement_lower with
      | None =>
          {| result := UNKNOWN; confidence := 0.0%Q;
             reasoning := py "Cannot parse statement structure";
             evidence := [] |}
      | Some (classification subject predicate _) =>
          _validate_classification self subject predicate
      | Some (mathematical expression) => _validate_mathematical expression
      | Some (physical claim) => _validate_physical claim
      | Some (general _) => _simulate_llm_validation statement
      end
  end.

(** [add_validated_fact] *)
Definition add_validated_fact (self : TruthValidator) (statement : pystr)
    (validation : ValidationResponse) : TruthValidator :=
  if bool_decide (result validation <> TRUE)
  then self
  else
    let key := _normalize_to_key (lower statement) in
    {| _established_facts := <[key := validation]> (_established_facts self) |}.

End WithUnicode.

End TruthValidator.

(** ** contradiction_engine.py *)
Module ContradictionEngine.

Import TruthValidator.

Inductive ContradictionType :=
| DIRECT
| LOGICAL
| TEMPORAL
| SURVIVAL.

(** [ContradictionType.value] *)
Definition type_value (t : ContradictionType) : pystr :=
  match t with
  | DIRECT => py "Direct logical contradiction"
  | LOGICAL => py "Logical contradiction through inference"
  | TEMPORAL => py "Temporal contradiction (time-based conflict)"
  | SURVIVAL => py "Violates survival axioms"
  end.

(** The dataclass [Proposition]; [__eq__] and [__hash__] read [id] only. *)
Record Proposition := {
  id : pystr;
  content : pystr;
  source : pystr;
  prop_timestamp : pystr;
  prop_confidence : Q
}.

Definition prop_eq (a b : Proposition) : bool := bool_decide (id a = id b).

Record Contradiction := {
  type : ContradictionType;
  propositions : list Proposition;
  explanation : pystr;
  severity : Q
}.

(** The state of a [ContradictionEngine] object. The set
    [_known_propositions] is the list of its members, one for each [id];
    Python fixes no order in which a set is read, the list is read in the
    order the members were added. *)
Record ContradictionEngine := {
  _known_propositions : list Proposition;
  _detected_contradictions : list Contradiction;
  _truth_validator : TruthValidator
}.

(** [ContradictionEngine.__init__] *)
Definition new_engine : ContradictionEngine :=
  {| _known_propositions := [];
     _detected_contradictions := [];
     _truth_validator := new_validator |}.

(** [set.add]: a member equal to [prop] stays. *)
Definition set_add (prop : Proposition) (known : list Proposition)
  : list Proposition :=
  if existsb (prop_eq prop) known then known else known ++ [prop].

Definition negations : list pystr :=
  [py "not"; py "no"; py "never"; py "cannot"; py "can't"; py "won't";
   py "don't"; py "doesn't"].

Definition opposites : list (pystr * pystr) :=
  [(py "builds", py "destroys"); (py "creates", py "destroys");
   (py "strengthens", py "weakens"); (py "supports", py "undermines");
   (py "helps", py "harms"); (py "improves", py "degrades");
   (py "stabilizes", py "destabilizes"); (py "maintains", py "breaks")].

(** One turn of the first loop of [_is_negation]: whether it returns
    [True] for the negation word [neg]. *)
Definition negation_hit (content1 content2 neg : pystr) : bool :=
  (contains neg content1 && negb (contains neg content2)
   && (let cleaned1 := strip (replace content1 neg []) in
       contains cleaned1 content2 || contains content2 cleaned1))
  || (contains neg content2 && negb (contains neg content1)
      && (let cleaned2 := strip (replace content2 neg []) in
          contains cleaned2 content1 || contains content1 cleaned2)).

(** The subjects before the two verbs are the same or one holds the
    other. *)
Definition same_subject (content1 verb1 content2 verb2 : pystr) : bool :=
  let idx1 := find content1 verb1 in
  let idx2 := find content2 verb2 in
  (idx1 >? 0)%Z && (idx2 >? 0)%Z
  && (let subject1 := strip (slice_to content1 idx1) in
      let subject2 := strip (slice_to content2 idx2) in
      bool_decide (subject1 = subject2) || contains subject1 subject2
      || contains subject2 subject1).

(** One turn of the second loop of [_is_negation]. *)
Definition opposite_hit (content1 content2 : pystr) (pair : pystr * pystr)
  : bool :=
  let pos := fst pair in
  let neg := snd pair in
  (contains pos content1 && contains neg content2
   && same_subject content1 pos content2 neg)
  || (contains neg content1 && contains pos content2
      && same_subject content1 neg content2 pos).

(** [_is_negation]: each loop returns [True] at its first hit. *)
Definition _is_negation (content1 content2 : pystr) : bool :=
  existsb (negation_hit content1 content2) negations
  || existsb (opposite_hit content1 content2) opposites.

Definition greed_patterns : list pystr :=
  [py "maximize profit"; py "extract"; py "exploit"; py "short-term gain";
   py "at all costs"; py "profit above all"; py "maximum extraction";
   py "squeeze every penny"; py "milk for profit"].

Definition destabilize_patterns : list pystr :=
  [py "destabilize"; py "undermine"; py "break"; py "destroy collective";
   py "tear down"; py "dismantle"; py "sabotage"; py "weaken the system"].

(** [str(x)] for a [float] that is not negative and has at most two
    decimals: the shortest decimal, with one decimal at least. *)
Definition str_of_float (x : Q) : pystr :=
  let hundredths := (Qnum x * 100 / Zpos (Qden x))%Z in
  let units := Z.to_nat (hundredths / 100) in
  let cents := Z.to_nat (hundredths mod 100) in
  str_of_nat units ++ py "." ++
  (if (cents mod 10 =? 0)%nat then str_of_nat (cents / 10)
   else str_of_nat (cents / 10) ++ str_of_nat (cents mod 10)).

Definition newline : pystr := [10%N].

(** The loop of [generate_refusal]; [i] counts from 1. *)
Fixpoint refusal_lines (i : nat) (props : list Proposition) : pystr :=
  match props with
  | [] => []
  | prop :: rest =>
      py "  " ++ str_of_nat i ++ py ". [" ++ source prop ++ py "] "
         ++ content prop ++ newline ++ refusal_lines (S i) rest
  end.

(** [generate_refusal] *)
Definition generate_refusal (contradiction : Contradiction) : pystr :=
  py "REFUSAL: " ++ type_value (type contradiction) ++ newline
  ++ py "Reason: " ++ explanation contradiction ++ newline
  ++ py "Severity: " ++ str_of_float (severity contradiction) ++ newline
  ++ newline ++ py "Counterexample:" ++ newline
  ++ refusal_lines 1 (propositions contradiction)
  ++ newline ++ py "Logic is master. This command violates coherence.".

(** [get_contradiction_count] *)
Definition get_contradiction_count (self : ContradictionEngine) : Z :=
  len (_detected_contradictions self).

(** [get_contradictions] *)
Definition get_contradictions (self : ContradictionEngine)
  : list Contradiction := _detected_contradictions self.

Section WithUnicode.
Context {unicode : UnicodeData}.

(** The loop of [_check_direct_contradiction] over the known
    propositions. *)
Fixpoint direct_loop (content_lower : pystr) (prop : Proposition)
    (known : list Proposition) : option Contradiction :=
  match known with
  | [] => None
  | existing :: rest =>
      let existing_lower := lower (content existing) in
      if _is_negation content_lower existing_lower
      then Some {| type := DIRECT;
                   propositions := [existing; prop];
                   explanation :=
                     py "Direct contradiction: '" ++ content existing
                        ++ py "' vs '" ++ content prop ++ py "'";
                   severity := 1.0%Q |}
      else direct_loop content_lower prop rest
  end.

(** [_check_direct_contradiction] *)
Definition _check_direct_contradiction (self : ContradictionEngine)
    (prop : Proposition) : option Contradiction :=
  let content_lower := lower (content prop) in
  direct_loop content_lower prop (_known_propositions self).

(** [_check_survival_violation] *)
Definition _check_survival_violation (self : ContradictionEngine)
    (prop : Proposition) : option Contradiction :=
  let content_lower := lower (content prop) in
  if existsb (fun pattern => contains pattern content_lower) greed_patterns
  then Some {| type := SURVIVAL;
               propositions := [prop];
               explanation :=
                 py "Violates survival axiom: '" ++ content prop
                    ++ py "' optimizes for extraction over collective stability";
               severity := 0.8%Q |}
  else if existsb (fun pattern => contains pattern content_lower)
                  destabilize_patterns
  then Some {| type := SURVIVAL;
               propositions := [prop];
               explanation :=
                 py "Violates survival axiom: '" ++ content prop
                    ++ py "' destabilizes collective coherence";
               severity := 0.9%Q |}
  else None.

Definition with_validator (self : ContradictionEngine) (tv : TruthValidator)
  : ContradictionEngine :=
  {| _known_propositions := _known_propositions self;
     _detected_contradictions := _detected_contradictions self;
     _truth_validator := tv |}.

(** [_check_truth_violation]: the engine after the call (its validator may
    have learnt a fact) and the contradiction, if any. *)
Definition _check_truth_violation (self : ContradictionEngine)
    (prop : Proposition) : ContradictionEngine * option Contradiction :=
  let validation := validate_statement (_truth_validator self) (content prop) in
  match result validation with
  | FALSE =>
      (self,
       Some {| type := LOGICAL;
               propositions := [prop];
               explanation := py "Statement is false: " ++ reasoning validation;
               severity := 0.95%Q |})
  | CONTRADICTION =>
      (self,
       Some {| type := LOGICAL;
               propositions := [prop];
               explanation :=
                 py "Contradicts established facts: " ++ reasoning validation;
               severity := 1.0%Q |})
  | TRUE =>
      (with_validator self
         (add_validated_fact (_truth_validator self) (content prop) validation),
       None)
  | UNKNOWN => (self, None)
  end.

Definition detected (self : ContradictionEngine) (c : Contradiction)
  : ContradictionEngine :=
  {| _known_propositions := _known_propositions self;
     _detected_contradictions := _detected_contradictions self ++ [c];
     _truth_validator := _truth_validator self |}.

Definition known (self : ContradictionEngine) (prop : Proposition)
  : ContradictionEngine :=
  {| _known_propositions := set_add prop (_known_propositions self);
     _detected_contradictions := _detected_contradictions self;
     _truth_validator := _truth_validator self |}.

(** [add_proposition] *)
Definition add_proposition (self : ContradictionEngine) (prop : Proposition)
  : ContradictionEngine * option Contradiction :=
  match _check_direct_contradiction self prop with
  | Some contradiction => (detected self contradiction, Some contradiction)
  | None =>
      match _check_survival_violation self prop with
      | Some contradiction => (detected self contradiction, Some contradiction)
      | None =>
          match _check_truth_violation self prop with
          | (self, Some contradiction) =>
              (detected self contradiction, Some contradiction)
          | (self, None) => (known self prop, None)
          end
      end
  end.

End WithUnicode.

End ContradictionEngine.

(** ** frankenstein_core.py *)
Module FrankensteinCore.

Import ProofLedger AxiomKernel TruthValidator ContradictionEngine.

(** The state of a [FrankensteinCore] object. *)
Record FrankensteinCore := {
  axiom_kernel : AxiomKernel;
  proof_ledger : ProofLedger;
  contradiction_engine : ContradictionEngine;
  _override_active : bool;
  _contradiction_threshold : Q
}.

(** The dictionary of [get_status]. *)
Record Status := {
  axiom_kernel_immutable : bool;
  proof_ledger_valid : bool;
  proof_ledger_message : pystr;
  total_decisions : Z;
  contradictions_detected : Z;
  override_active : bool;
  status : pystr
}.

(** A value passed where the method expects a [str]: a [str], or a value
    of another type. *)
Inductive PyValue :=
| py_str (s : pystr)
| py_other.

Section WithRuntime.
Context {digest : Sha256} {unicode : UnicodeData}.

(** [FrankensteinCore.__init__]; [now] is the clock reading of the
    ledger's [append]. *)
Definition new_core (now : pystr) : FrankensteinCore :=
  {| axiom_kernel := new_kernel;
     proof_ledger :=
       fst (append new_ledger now
              [py "System initialization"]
              [py "Load axiom kernel"; py "Initialize proof ledger";
               py "Initialize contradiction engine"]
              (py "Frankenstein Core initialized - Logic is master")
              None);
     contradiction_engine := new_engine;
     _override_active := false;
     _contradiction_threshold := 0.7%Q |}.

(** The sanitized [source]. *)
Definition sanitize (source : pystr) : pystr :=
  take 50 (List.filter (fun c => isalnum c || contains [c] (py "_-")) source).

(** [process_command] on two [str] arguments. [now] is the clock reading
    of the method and [now_ledger] the one of the ledger's [append]. The
    result is the object after the call and the pair
    [(accepted, message)]. *)
Definition process_command (self : FrankensteinCore) (now now_ledger : pystr)
    (command source : pystr) : FrankensteinCore * (bool * pystr) :=
  let source := sanitize source in
  let timestamp := now in
  let prop :=
    {| id := source ++ py "_" ++ timestamp;
       content := command;
       source := source;
       prop_timestamp := timestamp;
       prop_confidence := 1.0%Q |} in
  let '(axiom_valid, axiom_reason) :=
    validate_against_axioms (axiom_kernel self) command in
  if negb axiom_valid
  then
    let refusal := py "AXIOM VIOLATION: " ++ axiom_reason in
    ({| axiom_kernel := axiom_kernel self;
        proof_ledger :=
          fst (append (proof_ledger self) now_ledger [command]
                      [py "Axiom validation"] (py "REFUSED") (Some refusal));
        contradiction_engine := contradiction_engine self;
        _override_active := _override_active self;
        _contradiction_threshold := _contradiction_threshold self |},
     (false, refusal))
  else
    match add_proposition (contradiction_engine self) prop with
    | (engine, Some contradiction) =>
        let override :=
          if Qle_bool (_contradiction_threshold self) (severity contradiction)
          then true else _override_active self in
        let refusal := generate_refusal contradiction in
        ({| axiom_kernel := axiom_kernel self;
            proof_ledger :=
              fst (append (proof_ledger self) now_ledger [command]
                          [py "Contradiction detection";
                           py "Type: " ++ type_value (type contradiction)]
                          (py "REFUSED") (Some refusal));
            contradiction_engine := engine;
            _override_active := override;
            _contradiction_threshold := _contradiction_threshold self |},
         (false, refusal))
    | (engine, None) =>
        ({| axiom_kernel := axiom_kernel self;
            proof_ledger :=
              fst (append (proof_ledger self) now_ledger [command]
                          [py "Axiom validation: PASS";
                           py "Contradiction check: PASS"]
                          (py "ACCEPTED") None);
            contradiction_engine := engine;
            _override_active := _override_active self;
            _contradiction_threshold := _contradiction_threshold self |},
         (true, py "Command accepted: " ++ command))
    end.

(** [process_command] on arguments of any type, with its two [isinstance]
    tests: a command that is not a [str] is refused at once, before the
    clock is read and without any record; a source that is not a [str] is
    replaced by "unknown". *)
Definition process_command_any (self : FrankensteinCore)
    (now now_ledger : pystr) (command source : PyValue)
  : FrankensteinCore * (bool * pystr) :=
  match command with
  | py_other => (self, (false, py "Command must be string"))
  | py_str command =>
      let source :=
        match source with
        | py_str source => source
        | py_other => py "unknown"
        end in
      process_command self now now_ledger command source
  end.

(** [is_override_active] *)
Definition is_override_active (self : FrankensteinCore) : bool :=
  _override_active self.

(** [get_status] *)
Definition get_status (self : FrankensteinCore) : Status :=
  let '(ledger_valid, ledger_msg) := verify_integrity (proof_ledger self) in
  {| axiom_kernel_immutable := is_immutable (axiom_kernel self);
     proof_ledger_valid := ledger_valid;
     proof_ledger_message := ledger_msg;
     total_decisions := get_record_count (proof_ledger self);
     contradictions_detected :=
       get_contradiction_count (contradiction_engine self);
     override_active := _override_active self;
     status := py "Logic is master" |}.

(** [get_proof_history] *)
Definition get_proof_history (self : FrankensteinCore) : list RecordDict :=
  map to_dict (get_records (proof_ledger self)).

End WithRuntime.

End FrankensteinCore.

Import ProofLedger AxiomKernel TruthValidator ContradictionEngine.
Import FrankensteinCore.

(** ** Histories of calls *)

(** The arguments of one call of [ProofLedger.append], with the clock
    reading of the call. *)
Record AppendCall := {
  call_now : pystr;
  call_premises : list pystr;
  call_inference_steps : list pystr;
  call_conclusion : pystr;
  call_counterexample : option pystr
}.

(** The text [verify_integrity] hashes for a stored record. *)
Definition stored_data (r : ProofRecord) : pystr :=
  record_data (timestamp r) (premises r) (inference_steps r) (conclusion r)
              (counterexample r) (prev_hash r).

(** The two failure messages of [verify_integrity] for the index [i]. *)
Definition chain_broken (i : nat) : pystr :=
  py "Chain broken at record " ++ str_of_nat i.

Definition hash_mismatch (i : nat) : pystr :=
  py "Record " ++ str_of_nat i ++ py " hash mismatch - content tampered".

(** A record with one field assigned. *)
Definition set_timestamp (r : ProofRecord) (v : pystr) : ProofRecord :=
  {| timestamp := v; premises := premises r;
     inference_steps := inference_steps r; conclusion := conclusion r;
     counterexample := counterexample r; hash := hash r;
     prev_hash := prev_hash r |}.

Definition set_premises (r : ProofRecord) (v : list pystr) : ProofRecord :=
  {| timestamp := timestamp r; premises := v;
     inference_steps := inference_steps r; conclusion := conclusion r;
     counterexample := counterexample r; hash := hash r;
     prev_hash := prev_hash r |}.

Definition set_inference_steps (r : ProofRecord) (v : list pystr)
  : ProofRecord :=
  {| timestamp := timestamp r; premises := premises r;
     inference_steps := v; conclusion := conclusion r;
     counterexample := counterexample r; hash := hash r;
     prev_hash := prev_hash r |}.

Definition set_conclusion (r : ProofRecord) (v : pystr) : ProofRecord :=
  {| timestamp := timestamp r; premises := premises r;
     inference_steps := inference_steps r; conclusion := v;
     counterexample := counterexample r; hash := hash r;
     prev_hash := prev_hash r |}.

Definition set_counterexample (r : ProofRecord) (v : option pystr)
  : ProofRecord :=
  {| timestamp := timestamp r; premises := premises r;
     inference_steps := inference_steps r; conclusion := conclusion r;
     counterexample := v; hash := hash r;
     prev_hash := prev_hash r |}.

Definition set_hash (r : ProofRecord) (v : pystr) : ProofRecord :=
  {| timestamp := timestamp r; premises := premises r;
     inference_steps := inference_steps r; conclusion := conclusion r;
     counterexample := counterexample r; hash := v;
     prev_hash := prev_hash r |}.


(** [content_changed r r']: [r'] is [r] with one of the five hashed
    content fields assigned a different value. *)
Inductive content_changed (r : ProofRecord) : ProofRecord -> Prop :=
| changed_timestamp v :
    v <> timestamp r -> content_changed r (set_timestamp r v)
| changed_premises v :
    v <> premises r -> content_changed r (set_premises r v)
| changed_inference_steps v :
    v <> inference_steps r -> content_changed r (set_inference_steps r v)
| changed_conclusion v :
    v <> conclusion r -> content_changed r (set_conclusion r v)
| changed_counterexample v :
    v <> counterexample r -> content_changed r (set_counterexample r v).


(** The ledger with the record at index [i] replaced in place. *)
Definition with_record (l : ProofLedger) (i : nat) (r : ProofRecord)
  : ProofLedger :=
  {| _records := <[i := r]> (_records l); _genesis_hash := _genesis_hash l |}.


(** Two appends, for the examples. *)
Definition example_calls : list AppendCall :=
  [ {| call_now := py "2024-01-01T00:00:00";
       call_premises := [py "System initialization"];
       call_inference_steps := [py "Load axiom kernel"];
       call_conclusion := py "Frankenstein Core initialized - Logic is master";
       call_counterexample := None |};
    {| call_now := py "2024-01-01T00:00:01";
       call_premises := [py "cats are animals"];
       call_inference_steps := [py "Axiom validation: PASS"];
       call_conclusion := py "ACCEPTED";
       call_counterexample := None |} ].

(** A digest for the examples: the text itself. *)
Definition identity_digest : Sha256 := fun data => data.

(** Unicode tables for the examples, which are ASCII. *)
Definition plain_unicode : UnicodeData :=
  {| unicode_lower := fun s => s; unicode_isalnum := fun _ => false |}.

Section LedgerRuns.
Context {digest : Sha256}.

Definition do_append (l : ProofLedger) (c : AppendCall) : ProofLedger :=
  fst (append l (call_now c) (call_premises c) (call_inference_steps c)
              (call_conclusion c) (call_counterexample c)).

(** The ledger after a sequence of [append] calls on a fresh one. *)
Definition appends (calls : list AppendCall) : ProofLedger :=
  fold_left do_append calls new_ledger.

(** The hash the next record has to name: the one of the last record, or
    the running hash [prev] when there is none. *)
Definition tail_hash (prev : pystr) (records : list ProofRecord) : pystr :=
  match last records with
  | Some r => hash r
  | None => prev
  end.

(** The records are linked from [prev] on and each carries the digest of
    its stored fields. *)
Fixpoint linked (prev : pystr) (records : list ProofRecord) : Prop :=
  match records with
  | [] => True
  | r :: rest =>
      prev_hash r = Some prev /\ hash r = _compute_hash (stored_data r)
      /\ linked (hash r) rest
  end.


End LedgerRuns.

(** A string of ASCII code points. *)
Definition ascii_only (s : pystr) : Prop := Forall (fun c => (c < 128)%N) s.

(** Every entry of a knowledge base carries the judgment TRUE. *)
Definition all_true (kb : gmap pystr ValidationResponse) : Prop :=
  map_Forall (fun _ v => result v = TRUE) kb.

(** One call of a public method of [FrankensteinCore]; the calls that
    read the clock carry its readings. *)
Inductive Call :=
| call_process_command (now now_ledger command source : pystr)
| call_is_override_active
| call_get_status
| call_get_proof_history.

Section PipelineRuns.
Context {digest : Sha256} {unicode : UnicodeData}.

(** The object after one call. [is_override_active], [get_status] and
    [get_proof_history] return a value and assign no attribute. *)
Definition step (self : FrankensteinCore) (c : Call) : FrankensteinCore :=
  match c with
  | call_process_command now now_ledger command source =>
      fst (process_command self now now_ledger command source)
  | call_is_override_active => self
  | call_get_status => self
  | call_get_proof_history => self
  end.

(** The object after a sequence of calls. *)
Definition run (self : FrankensteinCore) (calls : list Call) : FrankensteinCore :=
  fold_left step calls self.

(** The proposition [process_command] builds. *)
Definition proposition_of (now command source : pystr) : Proposition :=
  {| id := sanitize source ++ py "_" ++ now;
     content := command;
     source := sanitize source;
     prop_timestamp := now;
     prop_confidence := 1.0%Q |}.

(** The contradiction [process_command] gets from the engine, if the
    command passes the axiom gate and the engine returns one. *)
Definition contradiction_found (self : FrankensteinCore)
    (now command source : pystr) : option Contradiction :=
  if fst (validate_against_axioms (axiom_kernel self) command)
  then snd (add_proposition (contradiction_engine self)
                            (proposition_of now command source))
  else None.

(** The knowledge base of the pipeline's validator. *)
Definition knowledge_base (self : FrankensteinCore)
  : gmap pystr ValidationResponse :=
  _established_facts (_truth_validator (contradiction_engine self)).

(** The first scenario of the specification read literally: accepted, one
    record, and the first history entry concludes with the acceptance (in
    either spelling). *)
Definition first_scenario_as_claimed (now0 now now_ledger source : pystr)
  : Prop :=
  let r := process_command (new_core now0) now now_ledger
                           (py "cats are animals") source in
  fst (snd r) = true
  /\ get_record_count (proof_ledger (fst r)) = 1%Z
  /\ (d_conclusion <$> get_proof_history (fst r) !! 0 = Some (py "Accepted")
      \/ d_conclusion <$> get_proof_history (fst r) !! 0 = Some (py "ACCEPTED")).

End PipelineRuns.

(** ** logic_context.py *)
Module LogicContext.

(** One item of [recent_validations]. *)
Record Validation := {
  v_statement : pystr;
  v_result : pystr
}.

(** The state of a [LogicContext] object. *)
Record LogicContext := {
  lc_axiom_kernel : AxiomKernel.AxiomKernel;
  known_facts : list pystr;
  recent_validations : list Validation
}.

(** [LogicContext.__init__] *)
Definition new_context (axiom_kernel : AxiomKernel.AxiomKernel) : LogicContext :=
  {| lc_axiom_kernel := axiom_kernel;
     known_facts := [];
     recent_validations := [] |}.

(** [add_known_fact] *)
Definition add_known_fact (self : LogicContext) (fact : pystr) : LogicContext :=
  if bool_decide (fact ∈ known_facts self)
  then self
  else {| lc_axiom_kernel := lc_axiom_kernel self;
          known_facts := known_facts self ++ [fact];
          recent_validations := recent_validations self |}.

(** [l[-n:]] for a positive [n]: the last [n] items, all of them when the
    list is shorter. *)
Definition last_items {A} (n : nat) (l : list A) : list A :=
  drop (length l - n) l.

(** [add_validation] *)
Definition add_validation (self : LogicContext) (statement result : pystr)
  : LogicContext :=
  let appended :=
    recent_validations self
    ++ [{| v_statement := statement; v_result := result |}] in
  {| lc_axiom_kernel := lc_axiom_kernel self;
     known_facts := known_facts self;
     recent_validations :=
       if (len appended >? 20)%Z then last_items 20 appended else appended |}.

End LogicContext.

(** ** Reading the encoder's output back *)
Module JsonRead.

(** The value of one lowercase hexadecimal digit. *)
Definition unhex (d : N) : option N :=
  if ((48 <=? d) && (d <=? 57))%N then Some (d - 48)%N
  else if ((97 <=? d) && (d <=? 102))%N then Some (d - 87)%N
  else None.

(** One escaped code point at the head of a text, and the rest of the
    text. A quote at the head is no code point: it closes the string. *)
Definition read_point (s : pystr) : option (N * pystr) :=
  match s with
  | [] => None
  | c :: rest =>
      if (c =? 34)%N then None
      else if (c =? 92)%N then
        match rest with
        | [] => None
        | e :: rest' =>
            if (e =? 34)%N then Some (34%N, rest')
            else if (e =? 92)%N then Some (92%N, rest')
            else if (e =? 98)%N then Some (8%N, rest')
            else if (e =? 102)%N then Some (12%N, rest')
            else if (e =? 110)%N then Some (10%N, rest')
            else if (e =? 114)%N then Some (13%N, rest')
            else if (e =? 116)%N then Some (9%N, rest')
            else if (e =? 117)%N then
              match rest' with
              | h1 :: h2 :: h3 :: h4 :: rest'' =>
                  match unhex h1, unhex h2, unhex h3, unhex h4 with
                  | Some d1, Some d2, Some d3, Some d4 =>
                      Some ((d1 * 4096 + d2 * 256 + d3 * 16 + d4)%N, rest'')
                  | _, _, _, _ => None
                  end
              | _ => None
              end
            else None
        end
      else Some (c, rest)
  end.

(** The code points up to the closing quote, and the text after it;
    [fuel] bounds the number of code points read. *)
Fixpoint read_body (fuel : nat) (s : pystr) : option (pystr * pystr) :=
  match s with
  | [] => None
  | c :: rest =>
      if (c =? 34)%N then Some ([], rest)
      else
        match fuel with
        | O => None
        | S fuel' =>
            match read_point s with
            | None => None
            | Some (p, s') =>
                match read_body fuel' s' with
                | None => None
                | Some (body, after) => Some (p :: body, after)
                end
            end
        end
  end.

(** A string in quotes at the head of a text. *)
Definition read_str (s : pystr) : option (pystr * pystr) :=
  match s with
  | c :: rest => if (c =? 34)%N then read_body (length rest) rest else None
  | [] => None
  end.

(** [drop_prefix pre s]: [s] without its prefix [pre]. *)
Definition drop_prefix (pre s : pystr) : option pystr :=
  if startswith pre s then Some (drop (length pre) s) else None.

(** The strings of a list after its first one, up to the closing
    bracket. *)
Fixpoint read_items (fuel : nat) (s : pystr) : option (list pystr * pystr) :=
  match s with
  | c :: rest =>
      if (c =? 93)%N then Some ([], rest)
      else
        match fuel with
        | O => None
        | S fuel' =>
            match drop_prefix (py ", ") s with
            | None => None
            | Some s1 =>
                match read_str s1 with
                | None => None
                | Some (item, s2) =>
                    match read_items fuel' s2 with
                    | None => None
                    | Some (items, after) => Some (item :: items, after)
                    end
                end
            end
        end
  | [] => None
  end.

(** A list of strings at the head of a text. *)
Definition read_list (s : pystr) : option (list pystr * pystr) :=
  match s with
  | c :: rest =>
      if (c =? 91)%N then
        match rest with
        | c' :: rest' =>
            if (c' =? 93)%N then Some ([], rest')
            else
              match read_str rest with
              | None => None
              | Some (item, s2) =>
                  match read_items (length s2) s2 with
                  | None => None
                  | Some (items, after) => Some (item :: items, after)
                  end
              end
        | [] => None
        end
      else None
  | [] => None
  end.

(** [null] or a string at the head of a text. *)
Definition read_opt (s : pystr) : option (option pystr * pystr) :=
  match drop_prefix (py "null") s with
  | Some rest => Some (None, rest)
  | None =>
      match read_str s with
      | Some (v, rest) => Some (Some v, rest)
      | None => None
      end
  end.

(** The six hashed fields of a record. *)
Record Fields := {
  f_timestamp : pystr;
  f_premises : list pystr;
  f_inference_steps : list pystr;
  f_conclusion : pystr;
  f_counterexample : option pystr;
  f_prev_hash : option pystr
}.

(** The fields read back from the text [record_data] writes. *)
Definition read_record (s : pystr) : option Fields :=
  s1 ← drop_prefix (py "{" ++ Json.dumps_str (py "conclusion") ++ py ": ") s;
  '(conclusion, s2) ← read_str s1;
  s3 ← drop_prefix (py ", " ++ Json.dumps_str (py "counterexample") ++ py ": ") s2;
  '(counterexample, s4) ← read_opt s3;
  s5 ← drop_prefix (py ", " ++ Json.dumps_str (py "inference_steps") ++ py ": ") s4;
  '(inference_steps, s6) ← read_list s5;
  s7 ← drop_prefix (py ", " ++ Json.dumps_str (py "premises") ++ py ": ") s6;
  '(premises, s8) ← read_list s7;
  s9 ← drop_prefix (py ", " ++ Json.dumps_str (py "prev_hash") ++ py ": ") s8;
  '(prev_hash, s10) ← read_opt s9;
  s11 ← drop_prefix (py ", " ++ Json.dumps_str (py "timestamp") ++ py ": ") s10;
  '(timestamp, s12) ← read_str s11;
  if bool_decide (s12 = py "}")
  then Some {| f_timestamp := timestamp; f_premises := premises;
               f_inference_steps := inference_steps;
               f_conclusion := conclusion;
               f_counterexample := counterexample;
               f_prev_hash := prev_hash |}
  else None.

End JsonRead.

(** ** More on histories *)

(** Every code point of the string is below 0x10000. *)
Definition bmp (s : pystr) : Prop := Forall (fun c => (c < 65536)%N) s.

Definition bmp_opt (o : option pystr) : Prop :=
  match o with
  | None => True
  | Some s => bmp s
  end.

(** The hashed fields of a stored record. *)
Definition fields_of (r : ProofRecord) : JsonRead.Fields :=
  {| JsonRead.f_timestamp := timestamp r;
     JsonRead.f_premises := premises r;
     JsonRead.f_inference_steps := inference_steps r;
     JsonRead.f_conclusion := conclusion r;
     JsonRead.f_counterexample := counterexample r;
     JsonRead.f_prev_hash := prev_hash r |}.

(** Every hashed field of the record is made of code points below
    0x10000. *)
Definition bmp_record (r : ProofRecord) : Prop :=
  bmp (timestamp r) /\ Forall bmp (premises r)
  /\ Forall bmp (inference_steps r) /\ bmp (conclusion r)
  /\ bmp_opt (counterexample r) /\ bmp_opt (prev_hash r).

(** A ledger whose records form a chain from its genesis digest. *)
Definition chained {digest : Sha256} (l : ProofLedger) : Prop :=
  linked (_genesis_hash l) (_records l).

(** The code points [sanitize] keeps. *)
Definition source_char {unicode : UnicodeData} (c : N) : bool :=
  isalnum c || contains [c] (py "_-").

(** The call is one of [process_command]. *)
Definition is_process_command (c : Call) : bool :=
  match c with
  | call_process_command _ _ _ _ => true
  | _ => false
  end.

(** One call of a public method, [process_command] with arguments of any
    type. *)
Inductive AnyCall :=
| any_process_command (now now_ledger : pystr) (command source : PyValue)
| any_is_override_active
| any_get_status
| any_get_proof_history.

(** The call is one of [process_command] with a [str] command. *)
Definition has_str_command (c : AnyCall) : bool :=
  match c with
  | any_process_command _ _ (py_str _) _ => true
  | _ => false
  end.

Section AnyRuns.
Context {digest : Sha256} {unicode : UnicodeData}.

Definition step_any (self : FrankensteinCore) (c : AnyCall) : FrankensteinCore :=
  match c with
  | any_process_command now now_ledger command source =>
      fst (process_command_any self now now_ledger command source)
  | any_is_override_active => self
  | any_get_status => self
  | any_get_proof_history => self
  end.

Definition run_any (self : FrankensteinCore) (calls : list AnyCall)
  : FrankensteinCore :=
  fold_left step_any calls self.

End AnyRuns.

(** The engine with its known propositions replaced. *)
Definition with_known (self : ContradictionEngine) (known : list Proposition)
  : ContradictionEngine :=
  {| _known_propositions := known;
     _detected_contradictions := _detected_contradictions self;
     _truth_validator := _truth_validator self |}.

(** The patterns of [_check_survival_violation]. *)
Definition survival_patterns : list pystr :=
  greed_patterns ++ destabilize_patterns.

(** * Properties *)

(** ** The string operations and the encoder on examples *)

Example replace_overlap : replace (py "aaa") (py "aa") (py "b") = py "ba".
Proof. reflexivity. Qed.

Example replace_articles :
  replace (replace (py "a cat is not an animal") (py "a ") []) (py "an ") []
  = py "cat is not animal".
Proof. reflexivity. Qed.

Example split_first :
  split_once (py "x is y is z") (py " is ") = [py "x"; py "y is z"].
Proof. reflexivity. Qed.

Example strip_both : strip (py "  a b   ") = py "a b".
Proof. reflexivity. Qed.

Example find_none : find (py "abc") (py "x") = (-1)%Z.
Proof. reflexivity. Qed.

Example find_some : find (py "the cat") (py "cat") = 4%Z.
Proof. reflexivity. Qed.

Example str_of_nat_12 : str_of_nat 12 = py "12".
Proof. reflexivity. Qed.

Example lower_ascii :
  lower (unicode := plain_unicode) (py "Cats ARE Animals") = py "cats are animals".
Proof. reflexivity. Qed.

(** The quote, the backslash, a line feed, DEL, U+00E9 and U+1F600. *)
Example dumps_escapes :
  Json.dumps_str [97; 34; 92; 10; 127; 233; 128512]%N
  = [34; 97; 92; 34; 92; 92; 92; 110]%N
    ++ [92%N] ++ py "u007f" ++ [92%N] ++ py "u00e9"
    ++ [92%N] ++ py "ud83d" ++ [92%N] ++ py "ude00" ++ [34%N].
Proof. reflexivity. Qed.

Example record_data_key_order :
  record_data (py "t") [py "a"; py "b"] [] (py "c") None (Some (py "p"))
  = Json.dumps_sorted
      [ (py "conclusion", Json.Str (py "c"));
        (py "counterexample", Json.Null);
        (py "inference_steps", Json.Arr []);
        (py "premises", Json.Arr [py "a"; py "b"]);
        (py "prev_hash", Json.Str (py "p"));
        (py "timestamp", Json.Str (py "t")) ].
Proof. reflexivity. Qed.

Example str_of_float_values :
  map str_of_float [1.0%Q; 0.95%Q; 0.9%Q; 0.8%Q]
  = [py "1.0"; py "0.95"; py "0.9"; py "0.8"].
Proof. reflexivity. Qed.

(** ** The encoder writes ASCII *)

Lemma is_ascii_only (s : pystr) : forallb is_ascii s = true -> ascii_only s.
Proof.
  intros Hs. apply Forall_forall. intros c Hc.
  apply list_elem_of_In in Hc.
  pose proof (proj1 (forallb_forall is_ascii s) Hs c Hc) as Hlt.
  by apply N.ltb_lt in Hlt.
Qed.

(** A literal of the sources is ASCII. *)
Ltac ascii_literal := apply is_ascii_only; reflexivity.

Lemma hex_digit_ascii (n : N) : (n < 16)%N -> (Json.hex_digit n < 128)%N.
Proof. intros Hn. unfold Json.hex_digit. destruct (n <? 10)%N; lia. Qed.

Lemma u_escape_ascii (n : N) : ascii_only (Json.u_escape n).
Proof.
  unfold Json.u_escape, Json.hex4. apply Forall_app. split.
  - ascii_literal.
  - repeat constructor; apply hex_digit_ascii; by apply N.mod_lt.
Qed.

Lemma escape_ascii (c : N) : ascii_only (Json.escape c).
Proof.
  unfold Json.escape.
  repeat match goal with
         | |- ascii_only (if ?b then _ else _) => destruct b eqn:?
         end;
    try ascii_literal; try apply u_escape_ascii;
    try (repeat constructor; lia).
  - constructor; [|constructor]. apply andb_prop in Heqb1 as [_ Hle].
    apply N.leb_le in Hle. lia.
  - cbv zeta. apply Forall_app. split; apply u_escape_ascii.
Qed.

Lemma dumps_str_ascii (s : pystr) : ascii_only (Json.dumps_str s).
Proof.
  unfold Json.dumps_str, ascii_only. rewrite !Forall_app. split; [|split].
  - repeat constructor.
  - apply Forall_flat_map, Forall_forall. intros c _. apply escape_ascii.
  - repeat constructor.
Qed.

Lemma join_ascii (sep : pystr) (parts : list pystr) :
  ascii_only sep -> Forall ascii_only parts -> ascii_only (join sep parts).
Proof.
  intros Hsep Hparts. induction Hparts as [|p ps Hp Hps IH]; [constructor|].
  destruct ps as [|p' ps]; [done|].
  change (join sep (p :: p' :: ps)) with (p ++ sep ++ join sep (p' :: ps)).
  unfold ascii_only. rewrite !Forall_app. done.
Qed.

Lemma dumps_value_ascii (v : Json.value) : ascii_only (Json.dumps_value v).
Proof.
  destruct v as [|s|items]; cbn [Json.dumps_value].
  - ascii_literal.
  - apply dumps_str_ascii.
  - unfold ascii_only. rewrite !Forall_app.
    split; [ascii_literal|]. split; [|ascii_literal].
    apply join_ascii; [ascii_literal|].
    apply Forall_map, Forall_forall. intros s _. apply dumps_str_ascii.
Qed.

Lemma dumps_sorted_ascii (d : list (pystr * Json.value)) :
  ascii_only (Json.dumps_sorted d).
Proof.
  unfold Json.dumps_sorted, ascii_only. rewrite !Forall_app.
  split; [ascii_literal|]. split; [|ascii_literal].
  apply join_ascii; [ascii_literal|].
  apply Forall_map, Forall_forall. intros kv _. unfold ascii_only.
  rewrite !Forall_app. split; [apply dumps_str_ascii|].
  split; [ascii_literal|apply dumps_value_ascii].
Qed.

(** The text the ledger hashes is ASCII: its UTF-8 encoding exists. *)
Lemma record_data_ascii (timestamp : pystr) (premises inference_steps : list pystr)
    (conclusion : pystr) (counterexample prev_hash : option pystr) :
  ascii_only (record_data timestamp premises inference_steps conclusion
                          counterexample prev_hash).
Proof. apply dumps_sorted_ascii. Qed.

(** ** The hash chain *)
Section LedgerChain.
Context {digest : Sha256}.

Lemma tail_hash_snoc (prev : pystr) (rs : list ProofRecord) (r : ProofRecord) :
  tail_hash prev (rs ++ [r]) = hash r.
Proof. unfold tail_hash. by rewrite last_snoc. Qed.

Lemma tail_hash_cons (prev : pystr) (r : ProofRecord) (rs : list ProofRecord) :
  tail_hash prev (r :: rs) = tail_hash (hash r) rs.
Proof.
  unfold tail_hash. rewrite last_cons. by destruct (last rs).
Qed.

Lemma linked_app (prev : pystr) (rs1 rs2 : list ProofRecord) :
  linked prev (rs1 ++ rs2) <-> linked prev rs1 /\ linked (tail_hash prev rs1) rs2.
Proof.
  revert prev. induction rs1 as [|r rs1 IH]; intros prev.
  - simpl. unfold tail_hash. simpl. tauto.
  - rewrite tail_hash_cons. simpl. rewrite IH. tauto.
Qed.

Lemma verify_loop_linked (rs : list ProofRecord) (prev : pystr) (i : nat) :
  linked prev rs -> verify_loop prev i rs = (true, py "Ledger integrity verified").
Proof.
  revert prev i. induction rs as [|r rs IH]; intros prev i; [done|].
  intros (Hp & Hh & Hl). cbn [verify_loop].
  rewrite bool_decide_eq_false_2 by (intros Hne; apply Hne, Hp).
  rewrite bool_decide_eq_false_2 by (intros Hne; apply Hne, Hh).
  by apply IH.
Qed.

Lemma verify_loop_app (rs1 rs2 : list ProofRecord) (prev : pystr) (i : nat) :
  linked prev rs1 ->
  verify_loop prev i (rs1 ++ rs2)
  = verify_loop (tail_hash prev rs1) (i + length rs1) rs2.
Proof.
  revert prev i. induction rs1 as [|r rs1 IH]; intros prev i.
  - intros _. simpl. unfold tail_hash. simpl. by rewrite Nat.add_0_r.
  - intros (Hp & Hh & Hl). rewrite tail_hash_cons.
    change ((r :: rs1) ++ rs2) with (r :: (rs1 ++ rs2)). cbn [verify_loop].
    rewrite bool_decide_eq_false_2 by (intros Hne; apply Hne, Hp).
    rewrite bool_decide_eq_false_2 by (intros Hne; apply Hne, Hh).
    rewrite IH by done. f_equal. simpl. lia.
Qed.

Lemma appends_snoc (calls : list AppendCall) (c : AppendCall) :
  appends (calls ++ [c]) = do_append (appends calls) c.
Proof. unfold appends. by rewrite fold_left_app. Qed.

Lemma genesis_appends (calls : list AppendCall) :
  _genesis_hash (appends calls) = _genesis_hash new_ledger.
Proof.
  induction calls as [|c calls IH] using rev_ind; [done|].
  by rewrite appends_snoc.
Qed.

Lemma length_appends (calls : list AppendCall) :
  length (_records (appends calls)) = length calls.
Proof.
  induction calls as [|c calls IH] using rev_ind; [done|].
  rewrite appends_snoc. cbn. rewrite !length_app, IH. done.
Qed.

Lemma linked_appends (calls : list AppendCall) :
  linked (_genesis_hash new_ledger) (_records (appends calls)).
Proof.
  induction calls as [|c calls IH] using rev_ind; [done|].
  rewrite appends_snoc. cbn [do_append append fst _records].
  apply linked_app. split; [done|].
  rewrite genesis_appends. cbn. done.
Qed.

Lemma linked_lookup (rs : list ProofRecord) (prev : pystr) (i : nat)
    (r : ProofRecord) :
  linked prev rs -> rs !! i = Some r ->
  match i with
  | O => prev_hash r = Some prev
  | S j => exists p, rs !! j = Some p /\ prev_hash r = Some (hash p)
  end.
Proof.
  revert prev i. induction rs as [|r0 rs IH]; intros prev i Hl Hi; [done|].
  destruct Hl as (Hp & _ & Hl). destruct i as [|i]; simpl in Hi.
  - by inversion Hi; subst.
  - specialize (IH _ _ Hl Hi). destruct i as [|i].
    + exists r0. done.
    + destruct IH as (p & Hj & Hpp). exists p. done.
Qed.

(** What [verify_integrity] computes on a ledger of appended records after
    the record at index [i] was replaced by [r']. *)
Lemma verify_replaced (rs : list ProofRecord) (prev : pystr) (i : nat)
    (r r' : ProofRecord) :
  linked prev rs -> rs !! i = Some r ->
  verify_loop prev 0 (<[i := r']> rs)
  = if bool_decide (prev_hash r' <> prev_hash r)
    then (false, chain_broken i)
    else if bool_decide (hash r' <> _compute_hash (stored_data r'))
    then (false, hash_mismatch i)
    else verify_loop (hash r') (S i) (drop (S i) rs).
Proof.
  intros Hl Hi.
  assert (i < length rs) as Hlt by (by eapply lookup_lt_Some).
  rewrite insert_take_drop by done.
  rewrite <- (take_drop_middle rs i r Hi) in Hl.
  apply linked_app in Hl as (Hl1 & Hp & Hh & Hl2).
  rewrite verify_loop_app by done.
  rewrite length_take_le by lia. cbn [verify_loop Nat.add].
  rewrite Hp. unfold chain_broken, hash_mismatch, stored_data. done.
Qed.

Lemma verify_integrity_replaced (l : ProofLedger) (i : nat) (r r' : ProofRecord) :
  _records l !! i = Some r ->
  verify_integrity (with_record l i r')
  = verify_loop (_genesis_hash l) 0 (<[i := r']> (_records l)).
Proof.
  intros Hi. unfold verify_integrity, with_record. cbn [_records _genesis_hash].
  destruct (_records l) as [|r0 rs]; [done|]. by destruct i.
Qed.


Lemma linked_stored (rs : list ProofRecord) (prev : pystr) (i : nat)
    (r : ProofRecord) :
  linked prev rs -> rs !! i = Some r -> hash r = _compute_hash (stored_data r).
Proof.
  intros Hl Hi. rewrite <- (take_drop_middle rs i r Hi) in Hl.
  by apply linked_app in Hl as (_ & _ & Hh & _).
Qed.


Lemma content_changed_keeps (r r' : ProofRecord) :
  content_changed r r' -> prev_hash r' = prev_hash r /\ hash r' = hash r.
Proof. by intros []. Qed.

(** C1. After any sequence of [append] calls on a fresh ledger,
    [verify_integrity] reports the ledger valid: with the message of the
    empty ledger when there was no call, which is also what the fresh
    ledger gives, and with the message of a verified chain otherwise. The
    ledger holds one record for each call, the first record names the
    genesis digest as its [prev_hash] and every later one the [hash] of the
    record just before it. *)
Theorem appends_verify (calls : list AppendCall) :
  let l := appends calls in
  verify_integrity new_ledger = (true, py "Empty ledger is valid")
  /\ verify_integrity l
     = (true, match calls with
              | [] => py "Empty ledger is valid"
              | _ :: _ => py "Ledger integrity verified"
              end)
  /\ length (_records l) = length calls
  /\ forall (i : nat) (r : ProofRecord),
       _records l !! i = Some r ->
       match i with
       | O => prev_hash r
              = Some (_compute_hash (py "GENESIS_FRANKENSTEIN_DIVINE_LOGIC"))
       | S j => exists p : ProofRecord,
                  _records l !! j = Some p /\ prev_hash r = Some (hash p)
       end.
Proof.
  cbv zeta. split; [done|]. split; [|split].
  - pose proof (linked_appends calls) as Hl.
    pose proof (length_appends calls) as Hn.
    unfold verify_integrity. rewrite genesis_appends. revert Hl Hn.
    destruct (_records (appends calls)) as [|r rs]; intros Hl Hn.
    + by destruct calls.
    + destruct calls as [|c calls]; [done|].
      by apply verify_loop_linked.
  - apply length_appends.
  - intros i r Hi.
    apply (linked_lookup _ _ _ _ (linked_appends calls) Hi).
Qed.

End LedgerChain.

Lemma appends_verify_witness :
  exists r p : ProofRecord,
    _records (appends (digest := identity_digest) example_calls) !! 1 = Some r
    /\ _records (appends (digest := identity_digest) example_calls) !! 0 = Some p
    /\ prev_hash r = Some (hash p).
Proof.
  destruct (appends_verify (digest := identity_digest) example_calls)
    as (_ & _ & _ & Hlink).
  eexists. specialize (Hlink 1 _ eq_refl). cbv beta iota in Hlink.
  destruct Hlink as (p & Hp & Hr). exists p. split; [reflexivity|]. done.
Defined.


(** ** The axiom gate *)

(** C6, amended. The gate fails with the empty-statement reason exactly
    when the trimmed [s] is empty, whatever the length of [s]; it fails
    with the too-long reason exactly when the trimmed [s] is not empty and
    [s] has more than 10,000 code points; it succeeds exactly when the
    trimmed [s] is not empty and [s] has at most 10,000 code points, so a
    string of exactly 10,000 code points that is not blank passes. The
    result does not depend on the kernel object. *)
Theorem axiom_gate (self : AxiomKernel) (s : pystr) :
  let res := validate_against_axioms self s in
  (res = (false, py "Empty proposition violates identity") <-> strip s = [])
  /\ (res = (false, py "Proposition too long")
      <-> strip s <> [] /\ (len s > 10000)%Z)
  /\ (res = (true, py "Passes axiom validation")
      <-> strip s <> [] /\ (len s <= 10000)%Z)
  /\ (strip s <> [] -> len s = 10000%Z ->
      res = (true, py "Passes axiom validation"))
  /\ (forall other : AxiomKernel, validate_against_axioms other s = res).
Proof.
  cbv zeta. unfold validate_against_axioms.
  destruct (decide (strip s = [])) as [He|Hne].
  - rewrite (bool_decide_eq_true_2 (strip s = [])) by done.
    rewrite orb_true_r.
    repeat split; try done; try (intros []; done).
  - assert (s <> []) as Hs by (intros ->; by apply Hne).
    rewrite (bool_decide_eq_false_2 (s = [])) by done.
    rewrite (bool_decide_eq_false_2 (strip s = [])) by done.
    cbn [orb].
    destruct (Z.gtb_spec (len s) 10000) as [Hgt|Hle].
    + repeat split; try done; try lia; try (intros []; lia).
    + repeat split; try done; try lia; try (intros []; lia).
Qed.

Lemma axiom_gate_witness :
  validate_against_axioms new_kernel
    (repeat 120%N (N.to_nat 10000))
  = (true, py "Passes axiom validation").
Proof.
  destruct (axiom_gate new_kernel (repeat 120%N (N.to_nat 10000)))
    as (_ & _ & _ & Hpass & _).
  apply Hpass; [by vm_compute|by vm_compute].
Defined.

(** C6, the claim as stated fails. A string of 10,001 spaces is longer
    than 10,000 code points and the gate fails on it with the
    empty-statement reason, not with the too-long one. *)
Lemma long_blank_is_empty :
  let s := repeat 32%N (N.to_nat 10001) in
  (len s > 10000)%Z
  /\ validate_against_axioms new_kernel s
     = (false, py "Empty proposition violates identity")
  /\ validate_against_axioms new_kernel s <> (false, py "Proposition too long").
Proof. cbv zeta. split; [by vm_compute|]. split; by vm_compute. Qed.

(** ** The truth validator *)

Lemma startswith_app (pre s : pystr) :
  startswith pre s = true -> s = pre ++ drop (length pre) s.
Proof.
  revert s. induction pre as [|a pre IH]; intros s Hs; [done|].
  destruct s as [|b s]; [done|]. simpl in Hs.
  apply andb_prop in Hs as [Hab Hs]. apply bool_decide_eq_true_1 in Hab.
  subst b. simpl. f_equal. by apply IH.
Qed.

(** [split_once] cuts at the first occurrence of a separator that
    occurs. *)
Lemma split_once_go_first (sep s acc : pystr) :
  contains sep s = true ->
  exists before after : pystr,
    s = before ++ sep ++ after
    /\ (forall k : nat, k < length before -> startswith sep (drop k s) = false)
    /\ split_once_go sep acc s = [rev acc ++ before; after].
Proof.
  revert acc. induction s as [|c s IH]; intros acc Hc.
  - simpl in Hc. rewrite orb_false_r in Hc.
    exists [], (drop (length sep) []). split; [|split].
    + by apply startswith_app.
    + simpl. lia.
    + simpl. rewrite Hc. by rewrite app_nil_r.
  - cbn [contains] in Hc. cbn [split_once_go].
    destruct (startswith sep (c :: s)) eqn:Hst.
    + exists [], (drop (length sep) (c :: s)). split; [|split].
      * by apply startswith_app.
      * simpl. lia.
      * by rewrite app_nil_r.
    + simpl in Hc. destruct (IH (c :: acc) Hc) as (before & after & Hs & Hf & Hsplit).
      exists (c :: before), after. split; [|split].
      * simpl. by f_equal.
      * intros [|k] Hk; [done|]. simpl. apply Hf. simpl in Hk. lia.
      * rewrite Hsplit. simpl. by rewrite <- app_assoc.
Qed.

Lemma parse_other_not_classification (statement subject predicate relation : pystr) :
  parse_other statement <> Some (classification subject predicate relation).
Proof.
  unfold parse_other.
  destruct (existsb _ math_operators); [done|].
  by destruct (existsb _ physical_keywords).
Qed.

(** C8, amended. A statement that contains the word "is" between two
    spaces is parsed as a classification: it is cut at the first " is ",
    and the subject and the predicate are the two trimmed parts with every
    "a " and then every "an " removed. A statement without " is " is not a
    classification, also when it contains "are" or the letters "is". When
    the knowledge base has no entry for the statement's key,
    [validate_statement] gives the verdict of [_validate_classification] on
    that subject and predicate. *)
Theorem parse_is_classification (statement : pystr) :
  (contains (py " is ") statement = true ->
   exists before after : pystr,
     statement = before ++ py " is " ++ after
     /\ (forall k : nat, k < length before ->
           startswith (py " is ") (drop k statement) = false)
     /\ _parse_statement statement
        = Some (classification
                  (replace (replace (strip before) (py "a ") []) (py "an ") [])
                  (replace (replace (strip after) (py "a ") []) (py "an ") [])
                  (py "is")))
  /\ (contains (py " is ") statement = false ->
      forall subject predicate relation : pystr,
        _parse_statement statement
        <> Some (classification subject predicate relation))
  /\ (forall (U : UnicodeData) (self : TruthValidator) (raw : pystr),
        statement = strip (lower raw) ->
        _established_facts self !! _normalize_to_key statement = None ->
        forall subject predicate relation : pystr,
          _parse_statement statement
          = Some (classification subject predicate relation) ->
          validate_statement self raw
          = _validate_classification self subject predicate).
Proof.
  split; [|split].
  - intros Hc.
    destruct (split_once_go_first (py " is ") statement [] Hc)
      as (before & after & Hs & Hfirst & Hsplit).
    exists before, after. split; [done|]. split; [done|].
    unfold _parse_statement, split_once. rewrite Hc, Hsplit. done.
  - intros Hc subject predicate relation. unfold _parse_statement.
    rewrite Hc. apply parse_other_not_classification.
  - intros U self raw -> Hkb subject predicate relation Hparse.
    unfold validate_statement. rewrite Hkb, Hparse. done.
Qed.

Lemma parse_is_classification_witness :
  exists before after : pystr,
    py "the sky is a colour" = before ++ py " is " ++ after
    /\ _parse_statement (py "the sky is a colour")
       = Some (classification
                 (replace (replace (strip before) (py "a ") []) (py "an ") [])
                 (replace (replace (strip after) (py "a ") []) (py "an ") [])
                 (py "is")).
Proof.
  destruct (parse_is_classification (py "the sky is a colour")) as (Hc & _).
  destruct (Hc eq_refl) as (before & after & Hs & _ & Hp).
  exists before, after. split; [exact Hs|exact Hp].
Defined.

(** C8, the claim as stated fails. The statement "cats are animals"
    contains the copula "are" and its key is not in the knowledge base, and
    it is parsed as a general statement; "this works" contains the letters
    "is" and is parsed as a general statement too. *)
Lemma are_is_not_classified :
  contains (py "are") (py "cats are animals") = true
  /\ _established_facts new_validator !! _normalize_to_key (py "cats are animals")
     = None
  /\ _parse_statement (py "cats are animals")
     = Some (general (py "cats are animals"))
  /\ contains (py "is") (py "this works") = true
  /\ _parse_statement (py "this works") = Some (general (py "this works")).
Proof. repeat split; by vm_compute. Qed.

Section ValidatorFacts.
Context {unicode : UnicodeData}.

(** C10. On a fresh validator, a statement whose lowercased, trimmed form,
    once every "a ", "an " and "the " is removed, contains "cat", "animal"
    and "is" gets the stored [cat_is_animal] entry: the result is TRUE with
    confidence 1.0, and nothing else of the statement is read. *)
Theorem cat_animal_is_true (statement : pystr) :
  let stripped :=
    replace (replace (replace (strip (lower statement)) (py "a ") [])
                     (py "an ") [])
            (py "the ") [] in
  contains (py "cat") stripped = true ->
  contains (py "animal") stripped = true ->
  contains (py "is") stripped = true ->
  validate_statement new_validator statement = cat_is_animal_fact
  /\ result (validate_statement new_validator statement) = TRUE
  /\ confidence (validate_statement new_validator statement) = 1.0%Q.
Proof.
  cbv zeta. intros Hcat Hanimal His.
  assert (validate_statement new_validator statement = cat_is_animal_fact)
    as ->; [|done].
  unfold validate_statement, _normalize_to_key.
  rewrite Hcat, Hanimal, His. cbn [andb]. reflexivity.
Qed.

End ValidatorFacts.

Lemma cat_animal_is_true_witness :
  validate_statement (unicode := plain_unicode) new_validator
                     (py "A cat is not an animal")
  = cat_is_animal_fact.
Proof.
  apply (cat_animal_is_true (unicode := plain_unicode) (py "A cat is not an animal"));
    reflexivity.
Defined.

(** ** The decision pipeline *)
Section Pipeline.
Context {digest : Sha256} {unicode : UnicodeData}.

Lemma direct_loop_severity (content_lower : pystr) (prop : Proposition)
    (known : list Proposition) (c : Contradiction) :
  direct_loop content_lower prop known = Some c -> severity c = 1.0%Q.
Proof.
  induction known as [|existing rest IH]; [done|]. cbn [direct_loop].
  destruct (_is_negation _ _); [|done]. by intros [= <-].
Qed.

Lemma survival_severity (self : ContradictionEngine) (prop : Proposition)
    (c : Contradiction) :
  _check_survival_violation self prop = Some c ->
  severity c = 0.8%Q \/ severity c = 0.9%Q.
Proof.
  unfold _check_survival_violation.
  destruct (existsb _ greed_patterns); [intros [= <-]; by left|].
  destruct (existsb _ destabilize_patterns); [intros [= <-]; by right|done].
Qed.

Lemma truth_severity (self : ContradictionEngine) (prop : Proposition)
    (c : Contradiction) :
  snd (_check_truth_violation self prop) = Some c ->
  severity c = 0.95%Q \/ severity c = 1.0%Q.
Proof.
  unfold _check_truth_violation.
  destruct (result _); cbn [snd]; try done;
    intros [= <-]; [by left|by right].
Qed.

Lemma add_proposition_severity (self : ContradictionEngine) (prop : Proposition)
    (c : Contradiction) :
  snd (add_proposition self prop) = Some c ->
  severity c = 1.0%Q \/ severity c = 0.95%Q \/ severity c = 0.9%Q
  \/ severity c = 0.8%Q.
Proof.
  unfold add_proposition.
  destruct (_check_direct_contradiction self prop) as [d|] eqn:Hd.
  { cbn [snd]. intros [= <-]. left. by eapply direct_loop_severity. }
  destruct (_check_survival_violation self prop) as [s|] eqn:Hs.
  { cbn [snd]. intros [= <-].
    destruct (survival_severity _ _ _ Hs); tauto. }
  pose proof (truth_severity self prop) as Ht.
  destruct (_check_truth_violation self prop) as [e [t|]]; cbn [snd] in *;
    [|done].
  intros [= <-]. destruct (Ht _ eq_refl); tauto.
Qed.

(** What [process_command] does to the override flag. *)
Lemma process_command_override (self : FrankensteinCore)
    (now now_ledger command source : pystr) :
  _override_active (fst (process_command self now now_ledger command source))
  = match contradiction_found self now command source with
    | Some c =>
        if Qle_bool (_contradiction_threshold self) (severity c)
        then true else _override_active self
    | None => _override_active self
    end.
Proof.
  unfold process_command, contradiction_found.
  fold (proposition_of now command source).
  destruct (validate_against_axioms (axiom_kernel self) command) as [[|] reason];
    cbn [negb fst]; [|done].
  by destruct (add_proposition _ _) as [engine [c|]].
Qed.

Lemma process_command_threshold (self : FrankensteinCore)
    (now now_ledger command source : pystr) :
  _contradiction_threshold
    (fst (process_command self now now_ledger command source))
  = _contradiction_threshold self.
Proof.
  unfold process_command.
  destruct (validate_against_axioms (axiom_kernel self) command) as [[|] reason];
    cbn [negb fst]; [|done].
  by destruct (add_proposition _ _) as [engine [c|]].
Qed.

Lemma step_keeps_override (self : FrankensteinCore) (c : Call) :
  _override_active self = true -> _override_active (step self c) = true.
Proof.
  intros Ho. destruct c; cbn [step]; try done.
  rewrite process_command_override, Ho.
  destruct (contradiction_found _ _ _ _); [|done]. by destruct (Qle_bool _ _).
Qed.

Lemma run_keeps_override (calls : list Call) (self : FrankensteinCore) :
  _override_active self = true -> _override_active (run self calls) = true.
Proof.
  revert self. induction calls as [|c calls IH]; intros self Ho; [done|].
  apply IH. by apply step_keeps_override.
Qed.

Lemma run_threshold (calls : list Call) (self : FrankensteinCore) :
  _contradiction_threshold (run self calls) = _contradiction_threshold self.
Proof.
  revert self. induction calls as [|c calls IH]; intros self; [done|].
  cbn [run fold_left]. fold (run (step self c) calls). rewrite IH.
  destruct c; cbn [step]; try done. apply process_command_threshold.
Qed.

(** C3. On a pipeline reached from a fresh one by any calls, a submitted
    statement for which the engine returns a contradiction of severity at
    least 0.7 leaves [override_active] true, and the flag is still true
    after any later sequence of calls of the pipeline's methods. From any
    state where the flag is true, no call of [process_command],
    [is_override_active], [get_status] or [get_proof_history] sets it back
    to false. *)
Theorem override_is_sticky (now0 : pystr) (before : list Call)
    (now now_ledger command source : pystr) (c : Contradiction)
    (later : list Call) :
  contradiction_found (run (new_core now0) before) now command source = Some c ->
  Qle_bool 0.7 (severity c) = true ->
  is_override_active
    (fst (process_command (run (new_core now0) before) now now_ledger
                          command source)) = true
  /\ is_override_active
       (run (new_core now0)
            (before ++ call_process_command now now_ledger command source
                    :: later)) = true
  /\ (forall (self : FrankensteinCore) (call : Call),
        is_override_active self = true ->
        is_override_active (step self call) = true)
  /\ (forall (self : FrankensteinCore) (calls : list Call),
        is_override_active self = true ->
        is_override_active (run self calls) = true).
Proof.
  intros Hc Hsev. unfold is_override_active.
  assert (_override_active
            (fst (process_command (run (new_core now0) before) now now_ledger
                                  command source)) = true) as Hset.
  { rewrite process_command_override, Hc, run_threshold.
    cbn [new_core _contradiction_threshold]. by rewrite Hsev. }
  split; [done|]. split; [|split].
  - unfold run. rewrite fold_left_app. cbn [fold_left step].
    by apply run_keeps_override.
  - apply step_keeps_override.
  - intros self calls. apply run_keeps_override.
Qed.

(** C9. Every contradiction [add_proposition] returns has severity 1.0,
    0.95, 0.9 or 0.8, so at least 0.8. On a pipeline reached from a fresh
    one, every command for which the engine returns a contradiction is
    refused and leaves [override_active] true. *)
Theorem contradiction_severity :
  (forall (self : ContradictionEngine) (prop : Proposition) (c : Contradiction),
     snd (add_proposition self prop) = Some c ->
     (severity c = 1.0%Q \/ severity c = 0.95%Q \/ severity c = 0.9%Q
      \/ severity c = 0.8%Q)
     /\ (0.8 <= severity c)%Q)
  /\ (forall (now0 : pystr) (before : list Call)
             (now now_ledger command source : pystr) (c : Contradiction),
        let self := run (new_core now0) before in
        contradiction_found self now command source = Some c ->
        Qle_bool (_contradiction_threshold self) (severity c) = true
        /\ fst (snd (process_command self now now_ledger command source)) = false
        /\ is_override_active
             (fst (process_command self now now_ledger command source)) = true).
Proof.
  assert (forall (self : ContradictionEngine) (prop : Proposition)
                 (c : Contradiction),
            snd (add_proposition self prop) = Some c ->
            (severity c = 1.0%Q \/ severity c = 0.95%Q \/ severity c = 0.9%Q
             \/ severity c = 0.8%Q)
            /\ (0.8 <= severity c)%Q /\ Qle_bool 0.7 (severity c) = true)
    as Hsev.
  { intros self prop c Hc.
    pose proof (add_proposition_severity _ _ _ Hc) as Hs. split; [done|].
    destruct Hs as [-> | [-> | [-> | ->]]]; by vm_compute. }
  split.
  - intros self prop c Hc. destruct (Hsev _ _ _ Hc) as (? & ? & _). done.
  - intros now0 before now now_ledger command source c self Hc.
    subst self. set (self := run (new_core now0) before) in *.
    assert (Qle_bool 0.7 (severity c) = true) as Hq.
    { unfold contradiction_found in Hc.
      destruct (fst (validate_against_axioms _ _)); [|done].
      by destruct (Hsev _ _ _ Hc) as (_ & _ & ?). }
    unfold is_override_active.
    rewrite process_command_override, Hc. unfold self at 1 3.
    rewrite run_threshold.
    cbn [new_core _contradiction_threshold]. rewrite Hq. split; [done|].
    split; [|done]. revert Hc.
    unfold process_command, contradiction_found.
    fold (proposition_of now command source).
    destruct (validate_against_axioms (axiom_kernel self) command)
      as [[|] reason]; cbn [negb fst]; [|done].
    by destruct (add_proposition _ _) as [engine [c'|]].
Qed.

Lemma add_validated_fact_not_true (tv : TruthValidator) (statement : pystr)
    (v : ValidationResponse) :
  result v <> TRUE -> add_validated_fact tv statement v = tv.
Proof.
  intros Hv. unfold add_validated_fact. by rewrite bool_decide_eq_true_2.
Qed.

Lemma add_validated_fact_all_true (tv : TruthValidator) (statement : pystr)
    (v : ValidationResponse) :
  all_true (_established_facts tv) ->
  all_true (_established_facts (add_validated_fact tv statement v)).
Proof.
  intros Hall. unfold add_validated_fact. case_bool_decide as Hv; [done|].
  cbn [_established_facts]. apply map_Forall_insert_2; [|done].
  by destruct (decide (result v = TRUE)).
Qed.

Lemma new_validator_all_true : all_true (_established_facts new_validator).
Proof.
  unfold new_validator, _load_core_facts. cbn [_established_facts].
  repeat (apply map_Forall_insert_2; [done|]). apply map_Forall_empty.
Qed.

(** The validator of the engine after [add_proposition]: the one before,
    or the one before with the TRUE verdict of the proposition added. *)
Lemma add_proposition_validator (self : ContradictionEngine) (prop : Proposition) :
  let tv := _truth_validator self in
  let v := validate_statement tv (content prop) in
  _truth_validator (fst (add_proposition self prop)) = tv
  \/ (result v = TRUE
      /\ _truth_validator (fst (add_proposition self prop))
         = add_validated_fact tv (content prop) v).
Proof.
  cbv zeta. unfold add_proposition.
  destruct (_check_direct_contradiction self prop); [by left|].
  destruct (_check_survival_violation self prop); [by left|].
  unfold _check_truth_violation.
  destruct (result (validate_statement _ _)) eqn:Hr; cbn; auto.
Qed.

(** The validator of the pipeline after [process_command]. *)
Lemma process_command_validator (self : FrankensteinCore)
    (now now_ledger command source : pystr) :
  let tv := _truth_validator (contradiction_engine self) in
  let v := validate_statement tv command in
  let tv' :=
    _truth_validator
      (contradiction_engine
         (fst (process_command self now now_ledger command source))) in
  tv' = tv \/ (result v = TRUE /\ tv' = add_validated_fact tv command v).
Proof.
  cbv zeta. unfold process_command.
  fold (proposition_of now command source).
  destruct (validate_against_axioms (axiom_kernel self) command) as [[|] reason];
    cbn [negb fst]; [|by left].
  pose proof (add_proposition_validator (contradiction_engine self)
                (proposition_of now command source)) as Hv.
  cbv zeta in Hv. cbn [proposition_of content] in Hv.
  by destruct (add_proposition _ _) as [engine [c|]].
Qed.

Lemma run_all_true (calls : list Call) (self : FrankensteinCore) :
  all_true (knowledge_base self) -> all_true (knowledge_base (run self calls)).
Proof.
  revert self. induction calls as [|c calls IH]; intros self Hall; [done|].
  apply IH. destruct c as [now now_ledger command src| | |]; cbn [step];
    try done.
  unfold knowledge_base in *.
  destruct (process_command_validator self now now_ledger command src)
    as [-> | [_ ->]]; [done|].
  by apply add_validated_fact_all_true.
Qed.

(** C5. [add_validated_fact] leaves the validator as it is for a
    validation whose result is not TRUE. A submitted statement that the
    pipeline's validator judges UNKNOWN or FALSE leaves the knowledge base
    as it is: no entry is created or overwritten. In a pipeline reached
    from a fresh one by any calls, every entry of the knowledge base
    carries the judgment TRUE. *)
Theorem knowledge_base_only_true :
  (forall (tv : TruthValidator) (statement : pystr) (v : ValidationResponse),
     result v <> TRUE -> add_validated_fact tv statement v = tv)
  /\ (forall (self : FrankensteinCore) (now now_ledger command source : pystr),
        let v := validate_statement
                   (_truth_validator (contradiction_engine self)) command in
        result v = UNKNOWN \/ result v = FALSE ->
        knowledge_base (fst (process_command self now now_ledger command source))
        = knowledge_base self)
  /\ (forall (now0 : pystr) (calls : list Call) (key : pystr)
             (v : ValidationResponse),
        knowledge_base (run (new_core now0) calls) !! key = Some v ->
        result v = TRUE).
Proof.
  split; [|split].
  - apply add_validated_fact_not_true.
  - intros self now now_ledger command source v Hv. unfold knowledge_base.
    destruct (process_command_validator self now now_ledger command source)
      as [-> | [Ht _]]; [done|].
    fold v in Ht. destruct Hv as [Hv|Hv]; rewrite Hv in Ht; done.
  - intros now0 calls key v Hlook.
    apply (run_all_true calls (new_core now0) new_validator_all_true key v Hlook).
Qed.

(** The count [get_status] reports is the engine's. *)
Lemma get_status_contradictions (self : FrankensteinCore) :
  contradictions_detected (get_status self)
  = get_contradiction_count (contradiction_engine self).
Proof. unfold get_status. by destruct (verify_integrity _). Qed.

(** C4, amended. On a fresh system, submitting "cats are animals" is
    accepted. The ledger then has two records: the one [__init__] logs and
    the one of the decision. The first history entry concludes with the
    initialization text and the second with "ACCEPTED", without a
    counterexample. *)
Theorem cats_are_animals_accepted (now0 now now_ledger source : pystr) :
  let r := process_command (new_core now0) now now_ledger
                           (py "cats are animals") source in
  snd r = (true, py "Command accepted: cats are animals")
  /\ get_record_count (proof_ledger (fst r)) = 2%Z
  /\ d_conclusion <$> get_proof_history (fst r) !! 0
     = Some (py "Frankenstein Core initialized - Logic is master")
  /\ d_conclusion <$> get_proof_history (fst r) !! 1 = Some (py "ACCEPTED")
  /\ d_counterexample <$> get_proof_history (fst r) !! 1 = Some None
  /\ get_proof_history (fst r) !! 2 = None.
Proof. cbv zeta. repeat split; by vm_compute. Qed.

(** The refusal rendered for a contradiction about one proposition. *)
Lemma generate_refusal_one (c : Contradiction) (p : Proposition) :
  propositions c = [p] ->
  generate_refusal c
  = py "REFUSAL: " ++ type_value (type c) ++ newline
    ++ py "Reason: " ++ explanation c ++ newline
    ++ py "Severity: " ++ str_of_float (severity c) ++ newline
    ++ newline ++ py "Counterexample:" ++ newline
    ++ py "  1. [" ++ source p ++ py "] " ++ content p ++ newline
    ++ newline ++ py "Logic is master. This command violates coherence.".
Proof.
  intros Hp. unfold generate_refusal. rewrite Hp. cbn [refusal_lines].
  change (str_of_nat 1) with (py "1").
  change (py "  " ++ py "1" ++ py ". [" ++ source p ++ py "] " ++ content p
             ++ newline ++ [])
    with (py "  1. [" ++ source p ++ py "] " ++ content p ++ newline ++ []).
  rewrite app_nil_r. by rewrite <- !app_assoc.
Qed.

(** C7. On a fresh system, "5 + 5 = 10" is accepted and "5 + 5 = 11" is
    then refused: the engine returns one logical contradiction, of
    severity 0.95, whose explanation is that the statement is false because
    5 + 5 does not equal the stated result. The message of the call, which
    is also the counterexample of the ledger record concluding "REFUSED",
    is the refusal text written out below: the kind of the contradiction,
    the reason naming the mathematical falsehood, the severity and the
    refused statement with its sanitized source (the default source
    "user" is kept as it is). Afterwards the contradiction count is 1. *)
Theorem five_plus_five (now0 now1 now_ledger1 source1 now2 now_ledger2 source2
    : pystr) :
  let r1 := process_command (new_core now0) now1 now_ledger1
                            (py "5 + 5 = 10") source1 in
  let r2 := process_command (fst r1) now2 now_ledger2
                            (py "5 + 5 = 11") source2 in
  let falsehood :=
    {| type := LOGICAL;
       propositions := [proposition_of now2 (py "5 + 5 = 11") source2];
       explanation :=
         py "Statement is false: 5 + 5 does not equal the stated result";
       severity := 0.95%Q |} in
  let refusal_text :=
    py "REFUSAL: Logical contradiction through inference" ++ newline
    ++ py "Reason: Statement is false: 5 + 5 does not equal the stated result"
    ++ newline
    ++ py "Severity: 0.95" ++ newline
    ++ newline ++ py "Counterexample:" ++ newline
    ++ py "  1. [" ++ sanitize source2 ++ py "] 5 + 5 = 11" ++ newline
    ++ newline ++ py "Logic is master. This command violates coherence." in
  snd r1 = (true, py "Command accepted: 5 + 5 = 10")
  /\ get_contradiction_count (contradiction_engine (fst r1)) = 0%Z
  /\ snd r2 = (false, refusal_text)
  /\ generate_refusal falsehood = refusal_text
  /\ sanitize (py "user") = py "user"
  /\ get_contradictions (contradiction_engine (fst r2)) = [falsehood]
  /\ d_conclusion <$> last (get_proof_history (fst r2)) = Some (py "REFUSED")
  /\ d_counterexample <$> last (get_proof_history (fst r2))
     = Some (Some refusal_text)
  /\ get_contradiction_count (contradiction_engine (fst r2)) = 1%Z
  /\ contradictions_detected (get_status (fst r2)) = 1%Z.
Proof.
  cbv zeta. rewrite get_status_contradictions.
  set (falsehood :=
         {| type := LOGICAL;
            propositions := [proposition_of now2 (py "5 + 5 = 11") source2];
            explanation :=
              py "Statement is false: 5 + 5 does not equal the stated result";
            severity := 0.95%Q |}).
  assert (generate_refusal falsehood
          = py "REFUSAL: Logical contradiction through inference" ++ newline
            ++ py "Reason: Statement is false: 5 + 5 does not equal the stated result"
            ++ newline
            ++ py "Severity: 0.95" ++ newline
            ++ newline ++ py "Counterexample:" ++ newline
            ++ py "  1. [" ++ sanitize source2 ++ py "] 5 + 5 = 11" ++ newline
            ++ newline
            ++ py "Logic is master. This command violates coherence.")
    as Htext.
  { rewrite (generate_refusal_one falsehood _ eq_refl). reflexivity. }
  rewrite <- Htext.
  repeat split; by vm_compute.
Qed.

End Pipeline.

Lemma override_is_sticky_witness :
  is_override_active
    (run (digest := identity_digest) (unicode := plain_unicode)
         (new_core (digest := identity_digest) (py "t0"))
         ([call_get_status]
            ++ call_process_command (py "t1") (py "t2")
                 (py "maximize profit at all costs") (py "user")
            :: [call_process_command (py "t3") (py "t4")
                  (py "cats are animals") (py "user");
                call_get_proof_history])) = true.
Proof.
  edestruct (override_is_sticky (digest := identity_digest) (unicode := plain_unicode)
               (py "t0") [call_get_status] (py "t1") (py "t2")
               (py "maximize profit at all costs") (py "user"))
    as (_ & Hrun & _); [reflexivity|reflexivity|exact Hrun].
Defined.

Lemma contradiction_severity_witness :
  is_override_active
    (fst (process_command (digest := identity_digest) (unicode := plain_unicode)
            (run (digest := identity_digest) (unicode := plain_unicode)
                 (new_core (digest := identity_digest) (py "t0")) [])
            (py "t1") (py "t2") (py "a cat is a chair") (py "user"))) = true.
Proof.
  destruct (contradiction_severity (digest := identity_digest) (unicode := plain_unicode))
    as [_ Hpipe].
  edestruct (Hpipe (py "t0") [] (py "t1") (py "t2") (py "a cat is a chair")
                   (py "user")) as (_ & _ & Hset); [reflexivity|exact Hset].
Defined.

Lemma knowledge_base_only_true_witness :
  knowledge_base
    (fst (process_command (digest := identity_digest) (unicode := plain_unicode)
            (new_core (digest := identity_digest) (py "t0"))
            (py "t1") (py "t2") (py "5 + 5 = 11") (py "user")))
  = knowledge_base (new_core (digest := identity_digest) (py "t0")).
Proof.
  destruct (knowledge_base_only_true (digest := identity_digest) (unicode := plain_unicode))
    as (_ & Hkeep & _).
  apply Hkeep. right. reflexivity.
Defined.

(** C4, the claim as stated fails. Whatever the digest, the Unicode
    tables, the clock readings and the source, the ledger has two records
    after the first submission and its first history entry is the
    initialization record. *)
Lemma first_scenario_not_as_claimed :
  ~ exists (D : Sha256) (U : UnicodeData) (now0 now now_ledger source : pystr),
      @first_scenario_as_claimed D U now0 now now_ledger source.
Proof.
  intros (D & U & now0 & now & now_ledger & source & _ & Hcount & _).
  vm_compute in Hcount. discriminate.
Qed.

(** * Further properties *)

(** ** The ledger on any list of records *)
Section LedgerAny.
Context {digest : Sha256}.

Lemma verify_loop_true (rs : list ProofRecord) (prev : pystr) (i : nat) :
  fst (verify_loop prev i rs) = true <-> linked prev rs.
Proof.
  revert prev i. induction rs as [|r rs IH]; intros prev i; [done|].
  cbn [verify_loop linked]. fold (stored_data r).
  case_bool_decide as Hp; [cbn; split; [done|intros (? & _); done]|].
  case_bool_decide as Hh; [cbn; split; [done|intros (_ & ? & _); done]|].
  rewrite IH. tauto.
Qed.

Lemma verify_integrity_true (l : ProofLedger) :
  fst (verify_integrity l) = true <-> linked (_genesis_hash l) (_records l).
Proof.
  unfold verify_integrity. destruct (_records l) as [|r rs] eqn:Hrs; [done|].
  apply verify_loop_true.
Qed.

(** Where the loop of [verify_integrity] stops. *)
Lemma verify_loop_false (rs : list ProofRecord) (prev : pystr) (i0 : nat)
    (msg : pystr) :
  verify_loop prev i0 rs = (false, msg) ->
  exists (i : nat) (r : ProofRecord),
    rs !! i = Some r
    /\ linked prev (take i rs)
    /\ ((msg = chain_broken (i0 + i)
         /\ prev_hash r <> Some (tail_hash prev (take i rs)))
        \/ (msg = hash_mismatch (i0 + i)
            /\ prev_hash r = Some (tail_hash prev (take i rs))
            /\ hash r <> _compute_hash (stored_data r))).
Proof.
  revert prev i0. induction rs as [|r rs IH]; intros prev i0; [done|].
  cbn [verify_loop]. fold (stored_data r).
  case_bool_decide as Hp.
  { intros [= <-]. exists 0, r. rewrite Nat.add_0_r.
    split; [done|]. split; [done|]. by left. }
  case_bool_decide as Hh.
  { intros [= <-]. exists 0, r. rewrite Nat.add_0_r.
    split; [done|]. split; [done|]. right. done. }
  intros Hrest. destruct (IH _ _ Hrest) as (i & r' & Hi & Hl & Hcase).
  exists (S i), r'. split; [done|]. split; [by cbn|].
  rewrite firstn_cons, tail_hash_cons.
  by replace (i0 + S i) with (S i0 + i) by lia.
Qed.

(** X1. [verify_integrity] accepts a ledger, whatever its records, exactly
    when the first record names the genesis digest, every later record
    names the [hash] of the record before it, and every record's [hash] is
    the digest of its stored fields; the message is then the one of the
    empty ledger or the one of a verified chain. *)
Theorem verify_integrity_sound_complete (l : ProofLedger) :
  (fst (verify_integrity l) = true
   <-> linked (_genesis_hash l) (_records l))
  /\ (linked (_genesis_hash l) (_records l) ->
      verify_integrity l
      = (true, match _records l with
               | [] => py "Empty ledger is valid"
               | _ :: _ => py "Ledger integrity verified"
               end)).
Proof.
  split; [apply verify_integrity_true|].
  intros Hl. unfold verify_integrity.
  destruct (_records l) as [|r rs]; [done|]. by apply verify_loop_linked.
Qed.

(** X2. When [verify_integrity] fails, the index in its message is the one
    of the first offending record: the records before it form a valid
    chain, and the record itself names a wrong [prev_hash] (broken chain)
    or, with the right [prev_hash], carries a [hash] that is not the digest
    of its fields (hash mismatch). *)
Theorem verify_integrity_first_failure (l : ProofLedger) (msg : pystr) :
  verify_integrity l = (false, msg) ->
  exists (i : nat) (r : ProofRecord),
    _records l !! i = Some r
    /\ fst (verify_integrity (ProofLedger.Build_ProofLedger
                                (take i (_records l)) (_genesis_hash l)))
       = true
    /\ ((msg = chain_broken i
         /\ prev_hash r
            <> Some (tail_hash (_genesis_hash l) (take i (_records l))))
        \/ (msg = hash_mismatch i
            /\ prev_hash r
               = Some (tail_hash (_genesis_hash l) (take i (_records l)))
            /\ hash r <> _compute_hash (stored_data r))).
Proof.
  unfold verify_integrity at 1.
  destruct (_records l) as [|r0 rs] eqn:Hrs; [done|].
  intros Hv. destruct (verify_loop_false _ _ _ _ Hv) as (i & r & Hi & Hl & Hc).
  exists i, r. split; [done|]. split; [|done].
  by apply verify_integrity_true.
Qed.

(** X3. Cutting records off the end of a ledger that verifies leaves a
    ledger that verifies: [verify_integrity] does not notice a
    truncation. *)
Theorem truncation_unnoticed (l : ProofLedger) (n : nat) :
  fst (verify_integrity l) = true ->
  fst (verify_integrity (ProofLedger.Build_ProofLedger
                           (take n (_records l)) (_genesis_hash l)))
  = true.
Proof.
  rewrite !verify_integrity_true. cbn [_records _genesis_hash].
  intros Hl. rewrite <- (take_drop n (_records l)) in Hl.
  by apply linked_app in Hl as [Hl _].
Qed.

End LedgerAny.

Lemma verify_integrity_sound_complete_witness :
  verify_integrity (digest := identity_digest)
                   (appends (digest := identity_digest) example_calls)
  = (true, py "Ledger integrity verified").
Proof.
  apply (verify_integrity_sound_complete (digest := identity_digest)
           (appends (digest := identity_digest) example_calls)).
  by vm_compute.
Defined.

Lemma verify_integrity_first_failure_witness :
  let forged :=
    with_record (appends (digest := identity_digest) example_calls) 1
      (set_hash
         (snd (append (digest := identity_digest)
                 (appends (digest := identity_digest) (take 1 example_calls))
                 (py "2024-01-01T00:00:01") [py "cats are animals"]
                 [py "Axiom validation: PASS"] (py "ACCEPTED") None))
         (py "forged")) in
  exists (i : nat) (r : ProofRecord),
    _records forged !! i = Some r
    /\ fst (verify_integrity (digest := identity_digest)
              (ProofLedger.Build_ProofLedger
                 (take i (_records forged)) (_genesis_hash forged)))
       = true
    /\ ((hash_mismatch 1 = chain_broken i
         /\ prev_hash r
            <> Some (tail_hash (_genesis_hash forged)
                               (take i (_records forged))))
        \/ (hash_mismatch 1 = hash_mismatch i
            /\ prev_hash r
               = Some (tail_hash (_genesis_hash forged)
                                 (take i (_records forged)))
            /\ hash r
               <> _compute_hash (digest := identity_digest) (stored_data r))).
Proof.
  intros forged.
  apply (verify_integrity_first_failure (digest := identity_digest)
           forged (hash_mismatch 1)).
  vm_compute. reflexivity.
Defined.

Lemma truncation_unnoticed_witness :
  fst (verify_integrity (digest := identity_digest)
         (ProofLedger.Build_ProofLedger
            (take 1 (_records (appends (digest := identity_digest)
                                 example_calls)))
            (_genesis_hash (appends (digest := identity_digest)
                              example_calls))))
  = true.
Proof.
  apply (truncation_unnoticed (digest := identity_digest)). by vm_compute.
Defined.

(** ** The pipeline, call by call *)
Section PipelineSteps.
Context {digest : Sha256} {unicode : UnicodeData}.

(** [process_command] by its three outcomes. *)
Lemma process_command_cases (self : FrankensteinCore)
    (now now_ledger command source : pystr) :
  let v := validate_against_axioms (axiom_kernel self) command in
  let ap := add_proposition (contradiction_engine self)
                            (proposition_of now command source) in
  process_command self now now_ledger command source
  = if negb (fst v)
    then
      ({| axiom_kernel := axiom_kernel self;
          proof_ledger :=
            fst (append (proof_ledger self) now_ledger [command]
                        [py "Axiom validation"] (py "REFUSED")
                        (Some (py "AXIOM VIOLATION: " ++ snd v)));
          contradiction_engine := contradiction_engine self;
          _override_active := _override_active self;
          _contradiction_threshold := _contradiction_threshold self |},
       (false, py "AXIOM VIOLATION: " ++ snd v))
    else
      match snd ap with
      | Some c =>
          ({| axiom_kernel := axiom_kernel self;
              proof_ledger :=
                fst (append (proof_ledger self) now_ledger [command]
                            [py "Contradiction detection";
                             py "Type: " ++ type_value (type c)]
                            (py "REFUSED") (Some (generate_refusal c)));
              contradiction_engine := fst ap;
              _override_active :=
                if Qle_bool (_contradiction_threshold self) (severity c)
                then true else _override_active self;
              _contradiction_threshold := _contradiction_threshold self |},
           (false, generate_refusal c))
      | None =>
          ({| axiom_kernel := axiom_kernel self;
              proof_ledger :=
                fst (append (proof_ledger self) now_ledger [command]
                            [py "Axiom validation: PASS";
                             py "Contradiction check: PASS"]
                            (py "ACCEPTED") None);
              contradiction_engine := fst ap;
              _override_active := _override_active self;
              _contradiction_threshold := _contradiction_threshold self |},
           (true, py "Command accepted: " ++ command))
      end.
Proof.
  cbv zeta. unfold process_command. fold (proposition_of now command source).
  destruct (validate_against_axioms (axiom_kernel self) command)
    as [[|] reason]; cbn [negb fst snd]; [|done].
  by destruct (add_proposition _ _) as [engine [c|]].
Qed.

(** X4. A call of [process_command] whose command is not a [str] returns
    [False] with "Command must be string", appends no record and changes
    nothing. Every call whose command is a [str] appends exactly one record
    to the ledger and leaves the earlier records as they are, whatever the
    source. The record carries the clock reading of the append, the
    command as its only premise, the conclusion "ACCEPTED" when the call
    returns [True] and "REFUSED" when it returns [False], and as
    counterexample the returned message of a refusal, none for an
    acceptance; it is linked to the ledger's last record and hashed. *)
Theorem process_command_appends_one (self : FrankensteinCore)
    (now now_ledger : pystr) (source : PyValue) :
  process_command_any self now now_ledger py_other source
  = (self, (false, py "Command must be string"))
  /\ forall command : pystr,
       let res :=
         process_command_any self now now_ledger (py_str command) source in
       let accepted := fst (snd res) in
       let message := snd (snd res) in
       exists r : ProofRecord,
         _records (proof_ledger (fst res))
         = _records (proof_ledger self) ++ [r]
         /\ _genesis_hash (proof_ledger (fst res))
            = _genesis_hash (proof_ledger self)
         /\ get_record_count (proof_ledger (fst res))
            = (get_record_count (proof_ledger self) + 1)%Z
         /\ timestamp r = now_ledger
         /\ premises r = [command]
         /\ conclusion r = (if accepted then py "ACCEPTED" else py "REFUSED")
         /\ counterexample r = (if accepted then None else Some message)
         /\ prev_hash r
            = Some (tail_hash (_genesis_hash (proof_ledger self))
                              (_records (proof_ledger self)))
         /\ hash r = _compute_hash (stored_data r).
Proof.
  split; [done|]. intros command. cbv zeta. cbn [process_command_any].
  rewrite process_command_cases. cbv zeta.
  assert (forall steps conclusion counterexample,
            get_record_count
              (fst (append (proof_ledger self) now_ledger [command] steps
                           conclusion counterexample))
            = (get_record_count (proof_ledger self) + 1)%Z) as Hcount.
  { intros. unfold get_record_count, len. cbn. rewrite length_app. cbn. lia. }
  destruct (negb _);
    [|destruct (snd (add_proposition _ _)) as [c|]];
    cbn [fst snd proof_ledger]; eexists;
    (split; [reflexivity|]); (split; [reflexivity|]);
    (split; [apply Hcount|]); repeat split.
Qed.

(** The ledger after [process_command] is the ledger before with one
    append. *)
Lemma process_command_ledger (self : FrankensteinCore)
    (now now_ledger command source : pystr) :
  exists c : AppendCall,
    proof_ledger (fst (process_command self now now_ledger command source))
    = do_append (proof_ledger self) c.
Proof.
  rewrite process_command_cases. cbv zeta.
  destruct (negb _);
    [|destruct (snd (add_proposition _ _)) as [c|]]; cbn [fst proof_ledger].
  - by exists {| call_now := now_ledger; call_premises := [command];
                 call_inference_steps := [py "Axiom validation"];
                 call_conclusion := py "REFUSED";
                 call_counterexample :=
                   Some (py "AXIOM VIOLATION: "
                            ++ snd (validate_against_axioms
                                      (axiom_kernel self) command)) |}.
  - by exists {| call_now := now_ledger; call_premises := [command];
                 call_inference_steps :=
                   [py "Contradiction detection";
                    py "Type: " ++ type_value (type c)];
                 call_conclusion := py "REFUSED";
                 call_counterexample := Some (generate_refusal c) |}.
  - by exists {| call_now := now_ledger; call_premises := [command];
                 call_inference_steps :=
                   [py "Axiom validation: PASS";
                    py "Contradiction check: PASS"];
                 call_conclusion := py "ACCEPTED";
                 call_counterexample := None |}.
Qed.

Lemma do_append_chained (l : ProofLedger) (c : AppendCall) :
  chained l -> chained (do_append l c).
Proof.
  unfold chained. intros Hl. cbn. apply linked_app. split; [done|]. cbn. done.
Qed.

Lemma do_append_length (l : ProofLedger) (c : AppendCall) :
  length (_records (do_append l c)) = S (length (_records l)).
Proof. cbn. rewrite length_app. cbn. lia. Qed.

Lemma step_chained (self : FrankensteinCore) (c : Call) :
  chained (proof_ledger self) -> chained (proof_ledger (step self c)).
Proof.
  intros Hl. destruct c as [now now_ledger command src| | |]; cbn [step];
    try done.
  destruct (process_command_ledger self now now_ledger command src)
    as [ac ->].
  by apply do_append_chained.
Qed.

Lemma step_length (self : FrankensteinCore) (c : Call) :
  length (_records (proof_ledger (step self c)))
  = length (_records (proof_ledger self))
    + (if is_process_command c then 1 else 0).
Proof.
  destruct c as [now now_ledger command src| | |]; cbn [step is_process_command];
    try lia.
  destruct (process_command_ledger self now now_ledger command src)
    as [ac ->].
  rewrite do_append_length. lia.
Qed.

Lemma step_kernel (self : FrankensteinCore) (c : Call) :
  axiom_kernel (step self c) = axiom_kernel self.
Proof.
  destruct c as [now now_ledger command src| | |]; cbn [step]; try done.
  rewrite process_command_cases. cbv zeta.
  destruct (negb _); [done|]. by destruct (snd (add_proposition _ _)).
Qed.

Lemma run_ledger (calls : list Call) (self : FrankensteinCore) :
  chained (proof_ledger self) ->
  chained (proof_ledger (run self calls))
  /\ length (_records (proof_ledger (run self calls)))
     = length (_records (proof_ledger self))
       + length (List.filter is_process_command calls)
  /\ axiom_kernel (run self calls) = axiom_kernel self.
Proof.
  revert self. induction calls as [|c calls IH]; intros self Hl.
  { cbn. split; [done|]. split; [lia|done]. }
  destruct (IH (step self c) (step_chained _ _ Hl)) as (Hc & Hn & Hk).
  split; [done|]. split.
  - cbn [run fold_left] in *. fold (run (step self c) calls) in *.
    rewrite Hn, step_length. cbn [List.filter].
    destruct (is_process_command c); cbn [length]; lia.
  - cbn [run fold_left] in *. fold (run (step self c) calls) in *.
    by rewrite Hk, step_kernel.
Qed.

(** A call with arguments of any type does what some call on [str]
    arguments does; it counts as a decision when its command is a
    [str]. *)
Lemma step_any_typed (self : FrankensteinCore) (c : AnyCall) :
  exists c' : Call,
    step_any self c = step self c'
    /\ is_process_command c' = has_str_command c.
Proof.
  destruct c as [now now_ledger [command|] source| | |].
  - by exists (call_process_command now now_ledger command
                 match source with
                 | py_str s => s
                 | py_other => py "unknown"
                 end).
  - by exists call_get_status.
  - by exists call_is_override_active.
  - by exists call_get_status.
  - by exists call_get_proof_history.
Qed.

Lemma run_any_ledger (calls : list AnyCall) (self : FrankensteinCore) :
  chained (proof_ledger self) ->
  chained (proof_ledger (run_any self calls))
  /\ length (_records (proof_ledger (run_any self calls)))
     = length (_records (proof_ledger self))
       + length (List.filter has_str_command calls)
  /\ axiom_kernel (run_any self calls) = axiom_kernel self.
Proof.
  revert self. induction calls as [|c calls IH]; intros self Hl.
  { cbn. split; [done|]. split; [lia|done]. }
  destruct (step_any_typed self c) as (c' & Hstep & Hcount).
  cbn [run_any fold_left]. fold (run_any (step_any self c) calls).
  rewrite Hstep.
  destruct (IH (step self c') (step_chained _ _ Hl)) as (Hc & Hn & Hk).
  split; [done|]. split.
  - rewrite Hn, step_length, Hcount. cbn [List.filter].
    destruct (has_str_command c); cbn [length]; lia.
  - by rewrite Hk, step_kernel.
Qed.

(** X5. In a pipeline reached from a fresh one by any calls of its
    methods, with arguments of any type, [get_status] reports the kernel
    immutable and the ledger valid, with the message of a verified chain,
    and counts one decision for the initialization plus one for each
    [process_command] call whose command is a [str], accepted or refused;
    calls whose command is not a [str] are not counted. The proof history
    has as many entries. *)
Theorem status_of_a_run (now0 : pystr) (calls : list AnyCall) :
  let self := run_any (new_core now0) calls in
  axiom_kernel_immutable (get_status self) = true
  /\ proof_ledger_valid (get_status self) = true
  /\ proof_ledger_message (get_status self) = py "Ledger integrity verified"
  /\ total_decisions (get_status self)
     = (1 + Z.of_nat (length (List.filter has_str_command calls)))%Z
  /\ Z.of_nat (length (get_proof_history self))
     = total_decisions (get_status self).
Proof.
  cbv zeta.
  destruct (run_any_ledger calls (new_core now0)) as (Hc & Hn & Hk).
  { cbn. unfold chained. cbn. done. }
  set (self := run_any (new_core now0) calls) in *.
  assert (verify_integrity (proof_ledger self)
          = (true, py "Ledger integrity verified")) as Hv.
  { unfold verify_integrity. unfold chained in Hc.
    destruct (_records (proof_ledger self)) as [|r rs] eqn:Hrs.
    - cbn in Hn. lia.
    - by apply verify_loop_linked. }
  unfold get_status, get_proof_history, get_records. rewrite Hv.
  cbn [axiom_kernel_immutable proof_ledger_valid proof_ledger_message
       total_decisions].
  rewrite Hk. unfold get_record_count, len. rewrite length_map, Hn.
  cbn. repeat split; lia.
Qed.

(** X6. A command the axiom gate rejects (blank, or longer than 10,000
    code points) is refused with the message "AXIOM VIOLATION: " followed
    by the gate's reason; the contradiction engine is not consulted: its
    known propositions, its contradiction count and its knowledge base stay
    as they are, and so does the override flag. *)
Theorem axiom_violation_refused (self : FrankensteinCore)
    (now now_ledger command source : pystr) :
  strip command = [] \/ (len command > 10000)%Z ->
  let res := process_command self now now_ledger command source in
  snd res
  = (false,
     py "AXIOM VIOLATION: "
        ++ (if bool_decide (strip command = [])
            then py "Empty proposition violates identity"
            else py "Proposition too long"))
  /\ contradiction_engine (fst res) = contradiction_engine self
  /\ _override_active (fst res) = _override_active self.
Proof.
  intros Hbad. cbv zeta. rewrite process_command_cases. cbv zeta.
  assert (validate_against_axioms (axiom_kernel self) command
          = (false, if bool_decide (strip command = [])
                    then py "Empty proposition violates identity"
                    else py "Proposition too long")) as ->.
  { unfold validate_against_axioms.
    destruct (decide (strip command = [])) as [He|He].
    - rewrite !(bool_decide_eq_true_2 (strip command = [])) by done.
      by rewrite orb_true_r.
    - destruct Hbad as [Hb|Hlong]; [done|].
      rewrite !(bool_decide_eq_false_2 (strip command = [])) by done.
      rewrite bool_decide_eq_false_2 by (intros ->; by apply He).
      cbn [orb]. destruct (Z.gtb_spec (len command) 10000); [done|lia]. }
  done.
Qed.

Lemma direct_loop_some (content_lower : pystr) (prop : Proposition)
    (known : list Proposition) (c : Contradiction) :
  direct_loop content_lower prop known = Some c ->
  exists existing : Proposition,
    existing ∈ known
    /\ _is_negation content_lower (lower (content existing)) = true
    /\ c = {| type := DIRECT;
              propositions := [existing; prop];
              explanation :=
                py "Direct contradiction: '" ++ content existing
                   ++ py "' vs '" ++ content prop ++ py "'";
              severity := 1.0%Q |}.
Proof.
  induction known as [|e rest IH]; [done|]. cbn [direct_loop].
  destruct (_is_negation _ _) eqn:Hn.
  - intros [= <-]. exists e. split; [apply list_elem_of_here|done].
  - intros Hc. destruct (IH Hc) as (x & Hx & Hrest).
    exists x. split; [by apply list_elem_of_further|done].
Qed.

Lemma direct_loop_none (content_lower : pystr) (prop : Proposition)
    (known : list Proposition) :
  direct_loop content_lower prop known = None <->
  forall existing : Proposition,
    existing ∈ known ->
    _is_negation content_lower (lower (content existing)) = false.
Proof.
  induction known as [|e rest IH]; cbn [direct_loop].
  - split; [|done]. intros _ x Hx. by apply elem_of_nil in Hx.
  - destruct (_is_negation content_lower (lower (content e))) eqn:Hn.
    + split; [done|]. intros Hall.
      specialize (Hall e (list_elem_of_here _ _)). congruence.
    + rewrite IH. split.
      * intros Hall x Hx. apply elem_of_cons in Hx as [->|Hx]; auto.
      * intros Hall x Hx. apply Hall. by apply list_elem_of_further.
Qed.

(** X7. [_check_direct_contradiction] returns a contradiction exactly when
    some known proposition is a negation of the new one by [_is_negation]
    on the lowercased contents. The contradiction is then DIRECT, of
    severity 1.0, and lists that known proposition and the new one, in
    this order, with both contents in its explanation. *)
Theorem direct_contradiction_iff (self : ContradictionEngine)
    (prop : Proposition) :
  (_check_direct_contradiction self prop = None
   <-> forall existing : Proposition,
         existing ∈ _known_propositions self ->
         _is_negation (lower (content prop)) (lower (content existing))
         = false)
  /\ (forall c : Contradiction,
        _check_direct_contradiction self prop = Some c ->
        exists existing : Proposition,
          existing ∈ _known_propositions self
          /\ _is_negation (lower (content prop)) (lower (content existing))
             = true
          /\ type c = DIRECT /\ severity c = 1.0%Q
          /\ propositions c = [existing; prop]
          /\ explanation c
             = py "Direct contradiction: '" ++ content existing
                  ++ py "' vs '" ++ content prop ++ py "'").
Proof.
  unfold _check_direct_contradiction. split; [apply direct_loop_none|].
  intros c Hc. destruct (direct_loop_some _ _ _ _ Hc) as (e & He & Hn & ->).
  exists e. done.
Qed.

(** X8. [add_proposition] either reports a contradiction or learns the
    proposition, never both. With a contradiction, the contradiction is
    appended to the detected ones and the known propositions and the
    knowledge base stay as they are. Without one, the detected
    contradictions stay as they are and the proposition joins the known
    ones, unless a proposition with the same [id] is already known. *)
Theorem add_proposition_frame (self : ContradictionEngine) (prop : Proposition) :
  let res := add_proposition self prop in
  match snd res with
  | Some c =>
      _detected_contradictions (fst res) = _detected_contradictions self ++ [c]
      /\ _known_propositions (fst res) = _known_propositions self
      /\ _truth_validator (fst res) = _truth_validator self
      /\ get_contradiction_count (fst res)
         = (get_contradiction_count self + 1)%Z
  | None =>
      _detected_contradictions (fst res) = _detected_contradictions self
      /\ _known_propositions (fst res)
         = (if bool_decide (Exists (fun p => id p = id prop)
                                   (_known_propositions self))
            then _known_propositions self
            else _known_propositions self ++ [prop])
      /\ get_contradiction_count (fst res) = get_contradiction_count self
  end.
Proof.
  cbv zeta. unfold add_proposition.
  assert (forall c, get_contradiction_count (detected self c)
                    = (get_contradiction_count self + 1)%Z) as Hcount.
  { intros c. unfold get_contradiction_count, len. cbn.
    rewrite length_app. cbn. lia. }
  destruct (_check_direct_contradiction self prop) as [d|]; [by cbn|].
  destruct (_check_survival_violation self prop) as [s|]; [by cbn|].
  unfold _check_truth_violation.
  assert (set_add prop (_known_propositions self)
          = if bool_decide (Exists (fun p => id p = id prop)
                                   (_known_propositions self))
            then _known_propositions self
            else _known_propositions self ++ [prop]) as Hset.
  { unfold set_add.
    destruct (existsb (prop_eq prop) (_known_propositions self)) eqn:He.
    - rewrite bool_decide_eq_true_2; [done|].
      apply existsb_exists in He as (p & Hp & Heq).
      apply Exists_exists. exists p. split; [by apply list_elem_of_In|].
      unfold prop_eq in Heq. by apply bool_decide_eq_true_1 in Heq.
    - rewrite bool_decide_eq_false_2; [done|].
      intros Hex. apply Exists_exists in Hex as (p & Hp & Heq).
      assert (existsb (prop_eq prop) (_known_propositions self) = true)
        as Hcontra; [|congruence].
      apply existsb_exists. exists p. split; [by apply list_elem_of_In|].
      unfold prop_eq. by apply bool_decide_eq_true_2. }
  destruct (result (validate_statement _ _)); cbn [fst snd];
    rewrite ?Hcount; cbn; rewrite ?Hset; done.
Qed.

End PipelineSteps.

Lemma axiom_violation_refused_witness :
  snd (process_command (digest := identity_digest) (unicode := plain_unicode)
         (new_core (digest := identity_digest) (py "t0"))
         (py "t1") (py "t2") [] (py "user"))
  = (false, py "AXIOM VIOLATION: Empty proposition violates identity").
Proof.
  edestruct (axiom_violation_refused (digest := identity_digest)
               (unicode := plain_unicode)
               (new_core (digest := identity_digest) (py "t0"))
               (py "t1") (py "t2") [] (py "user")) as (Hres & _).
  - left. reflexivity.
  - exact Hres.
Defined.

Lemma direct_contradiction_iff_witness :
  let builds :=
    proposition_of (unicode := plain_unicode) (py "t1")
                   (py "the company builds trust") (py "user") in
  let destroys :=
    proposition_of (unicode := plain_unicode) (py "t2")
                   (py "the company destroys trust") (py "user") in
  let engine :=
    fst (add_proposition (unicode := plain_unicode) new_engine builds) in
  exists c : Contradiction,
    _check_direct_contradiction (unicode := plain_unicode) engine destroys
    = Some c
    /\ type c = DIRECT
    /\ severity c = 1.0%Q.
Proof.
  intros builds destroys engine.
  destruct (direct_contradiction_iff (unicode := plain_unicode) engine destroys)
    as [_ Hsome].
  destruct (_check_direct_contradiction engine destroys) as [c|] eqn:Hc;
    [|by vm_compute in Hc].
  exists c. split; [reflexivity|].
  destruct (Hsome c eq_refl) as (e & _ & _ & Ht & Hs & _). by split.
Defined.

(** ** Refusals and the override flag *)
Section Refusals.
Context {digest : Sha256} {unicode : UnicodeData}.

Lemma add_proposition_count (self : ContradictionEngine) (prop : Proposition) :
  get_contradiction_count (fst (add_proposition self prop))
  = (get_contradiction_count self
     + match snd (add_proposition self prop) with
       | Some _ => 1
       | None => 0
       end)%Z.
Proof.
  assert (forall e c, get_contradiction_count (detected e c)
                      = (get_contradiction_count e + 1)%Z) as Hcount.
  { intros e c. unfold get_contradiction_count, len. cbn.
    rewrite length_app. cbn. lia. }
  unfold add_proposition.
  destruct (_check_direct_contradiction self prop); [by cbn|].
  destruct (_check_survival_violation self prop); [by cbn|].
  unfold _check_truth_violation.
  destruct (result (validate_statement _ _)); cbn [fst snd];
    rewrite ?Hcount; unfold get_contradiction_count; cbn; lia.
Qed.

Lemma existsb_elem (f : pystr -> bool) (l : list pystr) (x : pystr) :
  x ∈ l -> f x = true -> existsb f l = true.
Proof.
  intros Hx Hf. apply existsb_exists. exists x.
  split; [by apply list_elem_of_In|done].
Qed.

(** X9. In a pipeline reached from a fresh one, a command that passes the
    axiom gate and whose lowercased text contains one of the extraction or
    destabilization patterns is refused, whatever was accepted before: the
    contradiction count grows by one, the override flag is set and the
    knowledge base is not touched. Unless a known proposition contradicts
    it directly, the contradiction is a SURVIVAL one about the command
    alone, of severity 0.8 for an extraction pattern and 0.9 otherwise. *)
Theorem survival_pattern_refused (now0 : pystr) (before : list Call)
    (now now_ledger command source pattern : pystr) :
  pattern ∈ survival_patterns ->
  contains pattern (lower command) = true ->
  strip command <> [] -> (len command <= 10000)%Z ->
  let self := run (new_core now0) before in
  let prop := proposition_of now command source in
  let res := process_command self now now_ledger command source in
  fst (snd res) = false
  /\ is_override_active (fst res) = true
  /\ get_contradiction_count (contradiction_engine (fst res))
     = (get_contradiction_count (contradiction_engine self) + 1)%Z
  /\ knowledge_base (fst res) = knowledge_base self
  /\ _known_propositions (contradiction_engine (fst res))
     = _known_propositions (contradiction_engine self)
  /\ (_check_direct_contradiction (contradiction_engine self) prop = None ->
      exists c : Contradiction,
        contradiction_found self now command source = Some c
        /\ type c = SURVIVAL /\ propositions c = [prop]
        /\ severity c
           = if existsb (fun p => contains p (lower command)) greed_patterns
             then 0.8%Q else 0.9%Q).
Proof.
  intros Hpat Hin Hstrip Hlen. cbv zeta.
  set (self := run (new_core now0) before).
  set (prop := proposition_of now command source).
  assert (validate_against_axioms (axiom_kernel self) command
          = (true, py "Passes axiom validation")) as Hgate.
  { unfold validate_against_axioms.
    rewrite (bool_decide_eq_false_2 (strip command = [])) by done.
    rewrite bool_decide_eq_false_2 by (intros ->; by apply Hstrip).
    cbn [orb]. destruct (Z.gtb_spec (len command) 10000); [lia|done]. }
  assert (exists s, _check_survival_violation (contradiction_engine self) prop
                    = Some s
                    /\ type s = SURVIVAL /\ propositions s = [prop]
                    /\ severity s
                       = if existsb (fun p => contains p (lower command))
                                    greed_patterns
                         then 0.8%Q else 0.9%Q) as (s & Hs & Hst & Hsp & Hss).
  { unfold _check_survival_violation. cbn [prop proposition_of content].
    destruct (existsb _ greed_patterns) eqn:Hg; [by eexists|].
    assert (existsb (fun p => contains p (lower command)) destabilize_patterns
            = true) as ->; [|by eexists].
    unfold survival_patterns in Hpat. apply elem_of_app in Hpat as [Hp|Hp].
    - rewrite (existsb_elem _ _ _ Hp Hin) in Hg. done.
    - by apply (existsb_elem _ _ _ Hp Hin). }
  assert (exists c, add_proposition (contradiction_engine self) prop
                    = (detected (contradiction_engine self) c, Some c)
                    /\ (_check_direct_contradiction (contradiction_engine self)
                                                    prop = None -> c = s))
    as (c & Hap & Hc).
  { unfold add_proposition.
    destruct (_check_direct_contradiction _ prop) as [d|].
    - exists d. done.
    - rewrite Hs. exists s. done. }
  pose proof (add_proposition_severity (contradiction_engine self) prop c)
    as Hsev. rewrite Hap in Hsev. specialize (Hsev eq_refl).
  assert (Qle_bool 0.7 (severity c) = true) as Hq.
  { destruct Hsev as [-> | [-> | [-> | ->]]]; by vm_compute. }
  assert (_contradiction_threshold self = 0.7%Q) as Hthr.
  { unfold self. by rewrite run_threshold. }
  rewrite process_command_cases. cbv zeta. fold prop.
  rewrite Hgate, Hap. cbn [negb fst snd]. unfold is_override_active.
  cbn [_override_active contradiction_engine]. rewrite Hthr, Hq.
  split; [done|]. split; [done|]. split.
  { unfold get_contradiction_count, len. cbn. rewrite length_app. cbn. lia. }
  split; [done|]. split; [done|].
  intros Hd. exists s. unfold contradiction_found. fold prop.
  rewrite Hgate, Hap. cbn [fst snd]. by rewrite (Hc Hd).
Qed.

Lemma step_counts (self : FrankensteinCore) (c : Call) :
  _contradiction_threshold self = 0.7%Q ->
  (_override_active self = true
   <-> (0 < get_contradiction_count (contradiction_engine self))%Z) ->
  _override_active (step self c) = true
  <-> (0 < get_contradiction_count (contradiction_engine (step self c)))%Z.
Proof.
  intros Hthr Hinv.
  assert (0 <= get_contradiction_count (contradiction_engine self))%Z as Hpos
    by (unfold get_contradiction_count, len; lia).
  destruct c as [now now_ledger command src| | |]; cbn [step]; try done.
  rewrite process_command_cases. cbv zeta.
  destruct (negb _); [done|].
  pose proof (add_proposition_count (contradiction_engine self)
                (proposition_of now command src)) as Hcount.
  pose proof (add_proposition_severity (contradiction_engine self)
                (proposition_of now command src)) as Hsev.
  destruct (snd (add_proposition _ _)) as [c|];
    cbn [fst _override_active contradiction_engine]; rewrite Hcount.
  - assert (Qle_bool 0.7 (severity c) = true) as Hq.
    { destruct (Hsev c eq_refl) as [-> | [-> | [-> | ->]]]; by vm_compute. }
    rewrite Hthr, Hq. split; [lia|done].
  - by rewrite Z.add_0_r.
Qed.

(** X10. In a pipeline reached from a fresh one by any calls, the override
    flag is set exactly when the engine has detected at least one
    contradiction: refusals by the axiom gate never set it, and every
    refusal by the engine does. *)
Theorem override_iff_contradiction (now0 : pystr) (calls : list Call) :
  let self := run (new_core now0) calls in
  is_override_active self = true
  <-> (0 < get_contradiction_count (contradiction_engine self))%Z.
Proof.
  cbv zeta. unfold is_override_active.
  assert (forall self : FrankensteinCore,
            _contradiction_threshold self = 0.7%Q ->
            (_override_active self = true
             <-> (0 < get_contradiction_count (contradiction_engine self))%Z) ->
            _override_active (run self calls) = true
            <-> (0 < get_contradiction_count
                       (contradiction_engine (run self calls)))%Z) as Hrun.
  { induction calls as [|c calls IH]; intros self Hthr Hinv; [done|].
    cbn [run fold_left]. fold (run (step self c) calls). apply IH.
    - destruct c as [now now_ledger command src| | |]; cbn [step]; try done.
      by rewrite process_command_threshold.
    - by apply step_counts. }
  apply Hrun; [done|]. cbn. split; [done|]. by vm_compute.
Qed.

Lemma classification_not_contradiction (tv : TruthValidator)
    (subject predicate : pystr) :
  result (_validate_classification tv subject predicate) <> CONTRADICTION.
Proof.
  unfold _validate_classification. cbv zeta.
  repeat match goal with
         | |- result (if ?b then _ else _) <> _ => destruct b
         end; done.
Qed.

Lemma validate_not_contradiction (tv : TruthValidator) (statement : pystr) :
  all_true (_established_facts tv) ->
  result (validate_statement tv statement) <> CONTRADICTION.
Proof.
  intros Hall. unfold validate_statement.
  destruct (_established_facts tv !! _) as [fact|] eqn:Hkb.
  { rewrite (Hall _ _ Hkb). done. }
  destruct (_parse_statement _) as [[s p r|e|c|g]|]; try done.
  - apply classification_not_contradiction.
  - unfold _validate_mathematical.
    repeat match goal with
           | |- result (if ?b then _ else _) <> _ => destruct b
           end; done.
Qed.

(** X11. A validator whose knowledge base holds TRUE entries only never
    answers CONTRADICTION. So in a pipeline reached from a fresh one, every
    LOGICAL contradiction comes from a FALSE verdict: its severity is 0.95
    and its explanation is "Statement is false: " followed by the
    validator's reasoning; the branch of severity 1.0 for contradicted
    established facts is never taken. *)
Theorem logical_contradiction_is_falsehood :
  (forall (tv : TruthValidator) (statement : pystr),
     all_true (_established_facts tv) ->
     result (validate_statement tv statement) <> CONTRADICTION)
  /\ (forall (now0 : pystr) (before : list Call)
             (now command source : pystr) (c : Contradiction),
        let self := run (new_core now0) before in
        contradiction_found self now command source = Some c ->
        type c = LOGICAL ->
        let v := validate_statement
                   (_truth_validator (contradiction_engine self)) command in
        result v = FALSE
        /\ severity c = 0.95%Q
        /\ explanation c = py "Statement is false: " ++ reasoning v
        /\ propositions c = [proposition_of now command source]).
Proof.
  split; [apply validate_not_contradiction|].
  intros now0 before now command source c self Hc Ht v.
  pose proof (run_all_true before (new_core now0) new_validator_all_true)
    as Hall. fold self in Hall. unfold knowledge_base in Hall.
  pose proof (validate_not_contradiction _ command Hall) as Hnc. fold v in Hnc.
  unfold contradiction_found in Hc.
  destruct (fst (validate_against_axioms _ _)); [|done].
  unfold add_proposition in Hc.
  destruct (_check_direct_contradiction _ _) as [d|] eqn:Hd.
  { cbn in Hc. injection Hc as <-.
    unfold _check_direct_contradiction in Hd.
    apply direct_loop_some in Hd as (e & _ & _ & ->). done. }
  destruct (_check_survival_violation _ _) as [s|] eqn:Hs.
  { cbn in Hc. injection Hc as <-. revert Hs Ht.
    unfold _check_survival_violation.
    destruct (existsb _ greed_patterns); [by intros [= <-]|].
    destruct (existsb _ destabilize_patterns); [by intros [= <-]|done]. }
  unfold _check_truth_violation in Hc.
  cbn [proposition_of content] in Hc. fold v in Hc.
  destruct (result v) eqn:Hr; cbn in Hc; try done.
  injection Hc as <-. done.
Qed.

End Refusals.

Lemma survival_pattern_refused_witness :
  is_override_active
    (fst (process_command (digest := identity_digest) (unicode := plain_unicode)
            (run (digest := identity_digest) (unicode := plain_unicode)
                 (new_core (digest := identity_digest) (py "t0")) [])
            (py "t1") (py "t2") (py "Maximize profit at all costs")
            (py "user"))) = true.
Proof.
  edestruct (survival_pattern_refused (digest := identity_digest)
               (unicode := plain_unicode) (py "t0") [] (py "t1") (py "t2")
               (py "Maximize profit at all costs") (py "user")
               (py "maximize profit")) as (_ & Hset & _).
  - by vm_compute; apply list_elem_of_here.
  - reflexivity.
  - by vm_compute.
  - by vm_compute.
  - exact Hset.
Defined.

Lemma logical_contradiction_is_falsehood_witness :
  exists c : Contradiction,
    contradiction_found (unicode := plain_unicode)
      (run (digest := identity_digest) (unicode := plain_unicode)
           (new_core (digest := identity_digest) (py "t0")) [])
      (py "t1") (py "5 + 5 = 11") (py "user") = Some c
    /\ severity c = 0.95%Q.
Proof.
  eexists. split; [reflexivity|].
  destruct (logical_contradiction_is_falsehood (digest := identity_digest)
              (unicode := plain_unicode)) as [_ Hlogical].
  edestruct (Hlogical (py "t0") [] (py "t1") (py "5 + 5 = 11") (py "user"))
    as (_ & Hsev & _); [reflexivity|reflexivity|exact Hsev].
Defined.

(** ** The negation test *)

Lemma same_subject_sym (content1 verb1 content2 verb2 : pystr) :
  same_subject content1 verb1 content2 verb2
  = same_subject content2 verb2 content1 verb1.
Proof.
  unfold same_subject. cbv zeta.
  rewrite (bool_decide_ext
             (strip (slice_to content1 (find content1 verb1))
              = strip (slice_to content2 (find content2 verb2)))
             (strip (slice_to content2 (find content2 verb2))
              = strip (slice_to content1 (find content1 verb1))))
    by (split; congruence).
  destruct (find content1 verb1 >? 0)%Z, (find content2 verb2 >? 0)%Z;
    cbn [andb]; try done.
  destruct (bool_decide _); cbn [orb]; [done|]. apply orb_comm.
Qed.

Lemma negation_hit_sym (content1 content2 neg : pystr) :
  negation_hit content1 content2 neg = negation_hit content2 content1 neg.
Proof. unfold negation_hit. apply orb_comm. Qed.

Lemma opposite_hit_sym (content1 content2 : pystr) (pair : pystr * pystr) :
  opposite_hit content1 content2 pair = opposite_hit content2 content1 pair.
Proof.
  unfold opposite_hit. cbv zeta.
  rewrite (same_subject_sym content2 (fst pair) content1 (snd pair)).
  rewrite (same_subject_sym content2 (snd pair) content1 (fst pair)).
  destruct (contains (fst pair) content1), (contains (snd pair) content2),
    (contains (snd pair) content1), (contains (fst pair) content2);
    cbn [andb orb]; rewrite ?orb_false_r; try done; apply orb_comm.
Qed.

Lemma existsb_ext_all {A} (f g : A -> bool) (l : list A) :
  (forall x, f x = g x) -> existsb f l = existsb g l.
Proof. intros Hfg. induction l as [|x l IH]; cbn; [done|]. by rewrite Hfg, IH. Qed.

(** X12. [_is_negation] is symmetric: it gives the same answer whichever
    of the two texts comes first. So the direct check of a proposition [b]
    by an engine that knows only [a] reports a contradiction exactly when
    the direct check of [a] by an engine that knows only [b] does. *)
Theorem is_negation_symmetric (content1 content2 : pystr) :
  _is_negation content1 content2 = _is_negation content2 content1
  /\ forall (unicode : UnicodeData) (a b : Proposition)
            (knows_a knows_b : ContradictionEngine),
       _known_propositions knows_a = [a] ->
       _known_propositions knows_b = [b] ->
       is_Some (_check_direct_contradiction knows_a b)
       <-> is_Some (_check_direct_contradiction knows_b a).
Proof.
  assert (forall c1 c2, _is_negation c1 c2 = _is_negation c2 c1) as Hsym.
  { intros c1 c2. unfold _is_negation. f_equal; apply existsb_ext_all; intros x.
    - apply negation_hit_sym.
    - apply opposite_hit_sym. }
  split; [apply Hsym|].
  intros unicode a b knows_a knows_b Ha Hb.
  unfold _check_direct_contradiction. rewrite Ha, Hb. cbn [direct_loop].
  rewrite (Hsym (lower (content a)) (lower (content b))).
  destruct (_is_negation _ _); split; intros Hs; try done;
    by destruct Hs.
Qed.

Lemma is_negation_symmetric_witness :
  let builds :=
    proposition_of (unicode := plain_unicode) (py "t1")
                   (py "the company builds trust") (py "user") in
  let destroys :=
    proposition_of (unicode := plain_unicode) (py "t2")
                   (py "the company destroys trust") (py "user") in
  is_Some (_check_direct_contradiction (unicode := plain_unicode)
             (with_known new_engine [destroys]) builds).
Proof.
  intros builds destroys.
  destruct (is_negation_symmetric [] []) as [_ Hboth].
  apply (Hboth plain_unicode builds destroys
           (with_known new_engine [builds]) (with_known new_engine [destroys])
           eq_refl eq_refl).
  eexists. reflexivity.
Defined.

(** ** The sanitized source *)
Section Source.
Context {unicode : UnicodeData}.

Lemma filter_all {A} (f : A -> bool) (l : list A) :
  Forall (fun x => f x = true) l -> List.filter f l = l.
Proof.
  induction 1 as [|x l Hx Hl IH]; [done|]. cbn. by rewrite Hx, IH.
Qed.

Lemma filter_Forall {A} (f : A -> bool) (l : list A) :
  Forall (fun x => f x = true) (List.filter f l).
Proof.
  induction l as [|x l IH]; cbn; [constructor|].
  destruct (f x) eqn:Hx; [by constructor|done].
Qed.

(** X13. The source stored with a proposition and printed in a refusal
    has at most 50 code points, each alphanumeric, an underscore or a
    hyphen, whatever the caller passed; a source that is already of this
    form and length is kept as it is, and sanitizing twice changes nothing
    more. *)
Theorem sanitize_bounds (source : pystr) :
  (len (sanitize source) <= 50)%Z
  /\ Forall (fun c => source_char c = true) (sanitize source)
  /\ (Forall (fun c => source_char c = true) source ->
      (len source <= 50)%Z -> sanitize source = source)
  /\ sanitize (sanitize source) = sanitize source.
Proof.
  unfold sanitize. fold source_char.
  assert (Forall (fun c => source_char c = true)
                 (take 50 (List.filter source_char source))) as Hall.
  { apply Forall_take, filter_Forall. }
  split; [|split; [done|split]].
  - unfold len. rewrite length_take. lia.
  - intros Hs Hlen. rewrite (filter_all _ _ Hs).
    apply take_ge. unfold len in Hlen. lia.
  - rewrite (filter_all _ _ Hall). by rewrite take_take, Nat.min_id.
Qed.

End Source.

Lemma sanitize_bounds_witness :
  sanitize (unicode := plain_unicode) (py "ops_team-7")
  = py "ops_team-7".
Proof.
  destruct (sanitize_bounds (unicode := plain_unicode) (py "ops_team-7"))
    as (_ & _ & Hkeep & _).
  apply Hkeep; [|by vm_compute].
  apply Forall_forall. intros c Hc. apply list_elem_of_In in Hc.
  vm_compute in Hc. by repeat destruct Hc as [<-|Hc].
Defined.

(** ** What the validator knows *)
Section Knowledge.
Context {unicode : UnicodeData}.

(** X14. A TRUE validation stored by [add_validated_fact] for a statement
    without blanks at its ends is what [validate_statement] returns for
    that statement from then on: the stored fact is looked up before any
    rule is tried. *)
Theorem stored_fact_is_returned (tv : TruthValidator) (statement : pystr)
    (v : ValidationResponse) :
  result v = TRUE ->
  strip (lower statement) = lower statement ->
  validate_statement (add_validated_fact tv statement v) statement = v.
Proof.
  intros Hv Hs. unfold validate_statement, add_validated_fact.
  rewrite bool_decide_eq_false_2 by (intros Hne; by apply Hne).
  cbn [_established_facts]. rewrite Hs. by rewrite lookup_insert_eq.
Qed.

(** X15. A statement whose key is not in the knowledge base and whose
    lowercased, trimmed text contains neither " is " nor "5 + 5" nor "5+5"
    is judged UNKNOWN, with no evidence of truth or falsehood: outside its
    stored facts the validator decides only classifications and sums of
    five and five. *)
Theorem unknown_by_default (tv : TruthValidator) (statement : pystr) :
  let text := strip (lower statement) in
  _established_facts tv !! _normalize_to_key text = None ->
  contains (py " is ") text = false ->
  contains (py "5 + 5") text = false ->
  contains (py "5+5") text = false ->
  result (validate_statement tv statement) = UNKNOWN
  /\ (confidence (validate_statement tv statement) <= 0.2)%Q.
Proof.
  cbv zeta. intros Hkb His H55 H55'. unfold validate_statement.
  rewrite Hkb. unfold _parse_statement. rewrite His. unfold parse_other.
  destruct (existsb _ math_operators).
  - unfold _validate_mathematical. rewrite H55, H55'. cbn. split; [done|].
    by vm_compute.
  - destruct (existsb _ physical_keywords); cbn; (split; [done|by vm_compute]).
Qed.

End Knowledge.

Lemma stored_fact_is_returned_witness :
  validate_statement (unicode := plain_unicode)
    (add_validated_fact (unicode := plain_unicode) new_validator
                        (py "Water is wet") cat_is_animal_fact)
    (py "Water is wet")
  = cat_is_animal_fact.
Proof.
  apply (stored_fact_is_returned (unicode := plain_unicode)); reflexivity.
Defined.

Lemma unknown_by_default_witness :
  result (validate_statement (unicode := plain_unicode) new_validator
                             (py "Cats are animals")) = UNKNOWN.
Proof.
  apply (unknown_by_default (unicode := plain_unicode) new_validator
           (py "Cats are animals")); reflexivity.
Defined.

(** ** The logic context *)

Import LogicContext.

(** X16. [add_known_fact] keeps the known facts free of repetitions, keeps
    the facts already there in their order, and makes the new fact
    known. *)
Theorem add_known_fact_no_repetition (self : LogicContext) (fact : pystr) :
  NoDup (known_facts self) ->
  NoDup (known_facts (add_known_fact self fact))
  /\ fact ∈ known_facts (add_known_fact self fact)
  /\ known_facts self `prefix_of` known_facts (add_known_fact self fact)
  /\ recent_validations (add_known_fact self fact) = recent_validations self.
Proof.
  intros Hnd. unfold add_known_fact. case_bool_decide as Hin.
  - split; [done|]. split; [done|]. split; [done|done].
  - cbn [known_facts recent_validations]. split.
    + apply NoDup_app. split; [done|]. split.
      * intros x Hx Hx'. apply list_elem_of_singleton in Hx'. by subst.
      * apply NoDup_singleton.
    + split; [apply elem_of_app; right; apply list_elem_of_here|].
      split; [by apply prefix_app_r|done].
Qed.

(** X17. After [add_validation] the context holds at most 20
    validations, whatever it held before; the last one is the validation
    just recorded, and the ones before it are the most recent of those
    held before, at most 19 of them, in their order. The known facts stay
    as they are. *)
Theorem add_validation_keeps_recent (self : LogicContext)
    (statement result : pystr) :
  let new := {| v_statement := statement; v_result := result |} in
  let after := recent_validations (add_validation self statement result) in
  length after = Nat.min (length (recent_validations self) + 1) 20
  /\ last after = Some new
  /\ after
     = drop (length (recent_validations self) - 19) (recent_validations self)
       ++ [new]
  /\ known_facts (add_validation self statement result) = known_facts self.
Proof.
  cbv zeta. unfold add_validation. cbv zeta.
  cbn [recent_validations known_facts].
  set (old := LogicContext.recent_validations self) in *.
  set (new := {| v_statement := statement; v_result := result |}).
  unfold len, last_items. rewrite length_app. cbn [length].
  destruct (Z.gtb_spec (Z.of_nat (length old + 1)) 20) as [Hgt|Hle].
  - replace (length old + 1 - 20) with (length old - 19) by lia.
    rewrite drop_app_le by lia.
    split; [rewrite length_app, length_drop; cbn; lia|].
    split; [by rewrite last_snoc|done].
  - replace (length old - 19) with 0 by lia. rewrite drop_0.
    split; [rewrite length_app; cbn; lia|].
    split; [by rewrite last_snoc|done].
Qed.

Lemma add_known_fact_no_repetition_witness :
  known_facts
    (add_known_fact
       (add_known_fact (new_context new_kernel) (py "cats are animals"))
       (py "cats are animals"))
  = [py "cats are animals"].
Proof.
  destruct (add_known_fact_no_repetition
              (add_known_fact (new_context new_kernel) (py "cats are animals"))
              (py "cats are animals")) as (_ & _ & _ & _).
  - apply NoDup_singleton.
  - reflexivity.
Defined.

(** ** Reading the encoded record back *)

Lemma unhex_hex_digit (d : N) :
  (d < 16)%N -> JsonRead.unhex (Json.hex_digit d) = Some d.
Proof.
  intros Hd. unfold Json.hex_digit, JsonRead.unhex.
  destruct (N.ltb_spec d 10) as [Hlt|Hge].
  - rewrite (proj2 (N.leb_le 48 (48 + d))) by lia.
    rewrite (proj2 (N.leb_le (48 + d) 57)) by lia.
    cbn [andb]. f_equal. lia.
  - rewrite (proj2 (N.leb_gt (87 + d) 57)) by lia. rewrite andb_false_r.
    rewrite (proj2 (N.leb_le 97 (87 + d))) by lia.
    rewrite (proj2 (N.leb_le (87 + d) 102)) by lia.
    cbn [andb]. f_equal. lia.
Qed.

Lemma hex4_value (c : N) :
  (c < 65536)%N ->
  ((c / 4096 mod 16) * 4096 + (c / 256 mod 16) * 256 + (c / 16 mod 16) * 16
   + c mod 16 = c)%N.
Proof.
  intros Hc.
  pose proof (N.div_mod c 16 ltac:(lia)).
  pose proof (N.div_mod (c / 16) 16 ltac:(lia)).
  pose proof (N.div_mod (c / 256) 16 ltac:(lia)).
  pose proof (N.mod_lt c 16 ltac:(lia)).
  pose proof (N.mod_lt (c / 16) 16 ltac:(lia)).
  pose proof (N.mod_lt (c / 256) 16 ltac:(lia)).
  assert (c / 256 = c / 16 / 16)%N as H256
    by (rewrite N.Div0.div_div; reflexivity).
  assert (c / 4096 = c / 256 / 16)%N as H4096
    by (rewrite N.Div0.div_div; reflexivity).
  assert (c / 4096 < 16)%N as Hhigh
    by (apply N.Div0.div_lt_upper_bound; lia).
  rewrite (N.mod_small (c / 4096) 16) by done.
  rewrite H4096 in *. rewrite H256 in *. lia.
Qed.

Lemma read_point_u_escape (c : N) (rest : pystr) :
  (c < 65536)%N ->
  JsonRead.read_point (Json.u_escape c ++ rest) = Some (c, rest).
Proof.
  intros Hc. unfold Json.u_escape, Json.hex4.
  change (py "\u") with [92%N; 117%N]. cbn [app JsonRead.read_point].
  change (92 =? 34)%N with false. change (92 =? 92)%N with true.
  change (117 =? 34)%N with false. change (117 =? 92)%N with false.
  change (117 =? 98)%N with false. change (117 =? 102)%N with false.
  change (117 =? 110)%N with false. change (117 =? 114)%N with false.
  change (117 =? 116)%N with false. change (117 =? 117)%N with true.
  cbv iota.
  rewrite !unhex_hex_digit by (by apply N.mod_lt).
  by rewrite hex4_value.
Qed.

Lemma read_point_escape (c : N) (rest : pystr) :
  (c < 65536)%N ->
  JsonRead.read_point (Json.escape c ++ rest) = Some (c, rest).
Proof.
  intros Hc. unfold Json.escape.
  destruct (N.eqb_spec c 34) as [->|H34]; [done|].
  destruct (N.eqb_spec c 92) as [->|H92]; [done|].
  destruct ((32 <=? c) && (c <=? 126))%N eqn:Hprint.
  { cbn [app JsonRead.read_point].
    rewrite (proj2 (N.eqb_neq c 34)) by done.
    by rewrite (proj2 (N.eqb_neq c 92)) by done. }
  destruct (N.eqb_spec c 8) as [->|H8]; [done|].
  destruct (N.eqb_spec c 12) as [->|H12]; [done|].
  destruct (N.eqb_spec c 10) as [->|H10]; [done|].
  destruct (N.eqb_spec c 13) as [->|H13]; [done|].
  destruct (N.eqb_spec c 9) as [->|H9]; [done|].
  rewrite (proj2 (N.ltb_lt c 65536)) by done.
  by apply read_point_u_escape.
Qed.

(** An escaped code point is not empty and does not start with a quote. *)
Lemma escape_head (c : N) :
  exists (h : N) (t : pystr), Json.escape c = h :: t /\ h <> 34%N.
Proof.
  unfold Json.escape.
  destruct (N.eqb_spec c 34) as [->|H34]; [by exists 92%N, [34%N]|].
  destruct (N.eqb_spec c 92) as [->|H92]; [by exists 92%N, [92%N]|].
  destruct ((32 <=? c) && (c <=? 126))%N; [by exists c, []|].
  repeat match goal with
         | |- context [if ?b then _ else _] => destruct b
         end;
    try (by eexists 92%N, _).
Qed.

Lemma read_body_escaped (s rest : pystr) (fuel : nat) :
  bmp s -> length s <= fuel ->
  JsonRead.read_body fuel (flat_map Json.escape s ++ 34%N :: rest)
  = Some (s, rest).
Proof.
  intros Hs. revert fuel. induction Hs as [|c s Hc Hs IH]; intros fuel Hf.
  - cbn. by destruct fuel.
  - cbn [flat_map]. rewrite <- app_assoc.
    destruct (escape_head c) as (h & t & He & Hh).
    destruct fuel as [|fuel]; [cbn in Hf; lia|].
    pose proof (read_point_escape c (flat_map Json.escape s ++ 34%N :: rest) Hc)
      as Hp.
    rewrite He in *. cbn [app JsonRead.read_body].
    rewrite (proj2 (N.eqb_neq h 34)) by done.
    cbn [app] in Hp. rewrite Hp. rewrite IH by (cbn in Hf; lia). done.
Qed.

Lemma length_escaped (s : pystr) : length s <= length (flat_map Json.escape s).
Proof.
  induction s as [|c s IH]; [done|]. cbn [flat_map].
  destruct (escape_head c) as (h & t & -> & _).
  rewrite length_app. cbn. lia.
Qed.

Lemma read_str_dumps (s rest : pystr) :
  bmp s -> JsonRead.read_str (Json.dumps_str s ++ rest) = Some (s, rest).
Proof.
  intros Hs. unfold Json.dumps_str, JsonRead.read_str.
  cbn [app]. change (34 =? 34)%N with true. cbv iota.
  rewrite <- app_assoc. cbn [app]. apply read_body_escaped; [done|].
  rewrite length_app. pose proof (length_escaped s). lia.
Qed.

Lemma drop_prefix_app (pre s : pystr) :
  JsonRead.drop_prefix pre (pre ++ s) = Some s.
Proof.
  unfold JsonRead.drop_prefix.
  assert (startswith pre (pre ++ s) = true) as ->.
  { induction pre as [|a pre IH]; [done|]. cbn.
    by rewrite bool_decide_eq_true_2, IH. }
  by rewrite drop_app_length.
Qed.

Lemma join_map_cons {A} (f : A -> pystr) (sep : pystr) (x : A) (l : list A) :
  join sep (map f (x :: l)) = f x ++ flat_map (fun y => sep ++ f y) l.
Proof.
  revert x. induction l as [|y l IH]; intros x.
  - cbn. by rewrite app_nil_r.
  - change (join sep (map f (x :: y :: l)))
      with (f x ++ sep ++ join sep (map f (y :: l))).
    rewrite IH. cbn [flat_map]. by rewrite <- app_assoc.
Qed.

Lemma read_items_written (items : list pystr) (rest : pystr) (fuel : nat) :
  Forall bmp items -> length items <= fuel ->
  JsonRead.read_items fuel
    (flat_map (fun s => py ", " ++ Json.dumps_str s) items ++ 93%N :: rest)
  = Some (items, rest).
Proof.
  intros Hitems. revert fuel.
  induction Hitems as [|s items Hs Hitems IH]; intros fuel Hf.
  - cbn. by destruct fuel.
  - destruct fuel as [|fuel]; [cbn in Hf; lia|].
    cbn [flat_map]. rewrite <- !app_assoc.
    change (py ", ") with [44%N; 32%N] at 1. cbn [app JsonRead.read_items].
    change (44 =? 93)%N with false. cbv iota.
    change (44%N :: 32%N :: ?x) with (py ", " ++ x).
    rewrite drop_prefix_app, read_str_dumps by done.
    rewrite IH by (cbn in Hf; lia). done.
Qed.

Lemma length_items_written (items : list pystr) (rest : pystr) :
  length items
  <= length (flat_map (fun s => py ", " ++ Json.dumps_str s) items ++ rest).
Proof.
  induction items as [|s items IH]; [cbn; lia|].
  cbn [flat_map]. rewrite <- !app_assoc.
  rewrite (length_app (py ", ")), (length_app (Json.dumps_str s)).
  change (length (py ", ")) with 2. cbn [length]. lia.
Qed.

Lemma read_list_written (items : list pystr) (rest : pystr) :
  Forall bmp items ->
  JsonRead.read_list (Json.dumps_value (Json.Arr items) ++ rest)
  = Some (items, rest).
Proof.
  intros Hitems. cbn [Json.dumps_value].
  destruct Hitems as [|s items Hs Hitems]; [done|].
  rewrite join_map_cons. rewrite <- !app_assoc.
  change (py "[") with [91%N]. change (py "]") with [93%N]. cbn [app].
  set (tail := flat_map (fun y => py ", " ++ Json.dumps_str y) items
               ++ 93%N :: rest).
  assert (exists t, Json.dumps_str s ++ tail = 34%N :: t) as [t Ht]
    by (by eexists).
  unfold JsonRead.read_list. change (91 =? 91)%N with true. cbv iota.
  rewrite Ht. change (34 =? 93)%N with false. cbv iota. rewrite <- Ht.
  rewrite read_str_dumps by done. unfold tail.
  rewrite read_items_written; [done|done|apply length_items_written].
Qed.

Lemma read_opt_written (o : option pystr) (rest : pystr) :
  bmp_opt o ->
  JsonRead.read_opt (Json.dumps_value (opt_value o) ++ rest) = Some (o, rest).
Proof.
  intros Ho. destruct o as [s|]; cbn [opt_value Json.dumps_value].
  - unfold JsonRead.read_opt.
    assert (JsonRead.drop_prefix (py "null") (Json.dumps_str s ++ rest) = None)
      as -> by done.
    by rewrite read_str_dumps.
  - unfold JsonRead.read_opt. by rewrite drop_prefix_app.
Qed.

(** The text [record_data] writes, piece by piece. *)
Lemma record_data_pieces (timestamp : pystr) (premises inference_steps : list pystr)
    (conclusion : pystr) (counterexample prev_hash : option pystr) :
  record_data timestamp premises inference_steps conclusion counterexample
              prev_hash
  = (py "{" ++ Json.dumps_str (py "conclusion") ++ py ": ")
    ++ Json.dumps_str conclusion
    ++ (py ", " ++ Json.dumps_str (py "counterexample") ++ py ": ")
    ++ Json.dumps_value (opt_value counterexample)
    ++ (py ", " ++ Json.dumps_str (py "inference_steps") ++ py ": ")
    ++ Json.dumps_value (Json.Arr inference_steps)
    ++ (py ", " ++ Json.dumps_str (py "premises") ++ py ": ")
    ++ Json.dumps_value (Json.Arr premises)
    ++ (py ", " ++ Json.dumps_str (py "prev_hash") ++ py ": ")
    ++ Json.dumps_value (opt_value prev_hash)
    ++ (py ", " ++ Json.dumps_str (py "timestamp") ++ py ": ")
    ++ Json.dumps_str timestamp
    ++ py "}".
Proof.
  unfold record_data, Json.dumps_sorted.
  change (Json.sort_items _)
    with [ (py "conclusion", Json.Str conclusion);
           (py "counterexample", opt_value counterexample);
           (py "inference_steps", Json.Arr inference_steps);
           (py "premises", Json.Arr premises);
           (py "prev_hash", opt_value prev_hash);
           (py "timestamp", Json.Str timestamp) ].
  cbn [map join fst snd Json.dumps_value]. by rewrite <- !app_assoc.
Qed.

Lemma read_record_written (r : ProofRecord) :
  bmp_record r ->
  JsonRead.read_record (stored_data r) = Some (fields_of r).
Proof.
  intros (Ht & Hp & Hi & Hc & Hce & Hph).
  unfold stored_data. rewrite record_data_pieces. unfold JsonRead.read_record.
  rewrite drop_prefix_app. cbn [mbind option_bind].
  rewrite read_str_dumps by done. cbn [mbind option_bind].
  rewrite drop_prefix_app. cbn [mbind option_bind].
  rewrite read_opt_written by done. cbn [mbind option_bind].
  rewrite drop_prefix_app. cbn [mbind option_bind].
  rewrite read_list_written by done. cbn [mbind option_bind].
  rewrite drop_prefix_app. cbn [mbind option_bind].
  rewrite read_list_written by done. cbn [mbind option_bind].
  rewrite drop_prefix_app. cbn [mbind option_bind].
  rewrite read_opt_written by done. cbn [mbind option_bind].
  rewrite drop_prefix_app. cbn [mbind option_bind].
  rewrite read_str_dumps by done. cbn [mbind option_bind].
  by rewrite bool_decide_eq_true_2.
Qed.

(** X18. The text the ledger hashes determines the record's fields when
    no code point of them is 0x10000 or above: two records with such
    fields and the same encoding have the same timestamp, premises,
    inference steps, conclusion, counterexample and [prev_hash]. *)
Theorem stored_data_injective (r r' : ProofRecord) :
  bmp_record r -> bmp_record r' ->
  stored_data r = stored_data r' ->
  timestamp r = timestamp r' /\ premises r = premises r'
  /\ inference_steps r = inference_steps r' /\ conclusion r = conclusion r'
  /\ counterexample r = counterexample r' /\ prev_hash r = prev_hash r'.
Proof.
  intros Hr Hr' Heq.
  pose proof (read_record_written r Hr) as Hread.
  rewrite Heq, (read_record_written r' Hr') in Hread.
  injection Hread as Ht Hp Hi Hc Hce Hph. done.
Qed.

Lemma content_changed_fields (r r' : ProofRecord) :
  content_changed r r' -> fields_of r' <> fields_of r.
Proof. intros [v Hv|v Hv|v Hv|v Hv|v Hv] Heq; by injection Heq. Qed.

Lemma bmp_checked (s : pystr) :
  forallb (fun c => (c <? 65536)%N) s = true -> bmp s.
Proof.
  intros Hs. apply Forall_forall. intros c Hc. apply list_elem_of_In in Hc.
  pose proof (proj1 (forallb_forall _ s) Hs c Hc) as Hlt.
  by apply N.ltb_lt in Hlt.
Qed.

Section BmpTamper.
Context {digest : Sha256}.

(** X19. In a ledger built by [append] calls, assigning one of
    [timestamp], [premises], [inference_steps], [conclusion] or
    [counterexample] of the record at index [i] a different value makes
    [verify_integrity] fail with the hash-mismatch message for [i],
    provided that the record's fields before and after the change have no
    code point from 0x10000 on and that the digest does not send the two
    different encodings to the same value. *)
Theorem bmp_tamper_detected (calls : list AppendCall) (i : nat)
    (r r' : ProofRecord) :
  _records (appends calls) !! i = Some r ->
  content_changed r r' ->
  bmp_record r -> bmp_record r' ->
  (stored_data r' <> stored_data r ->
   _compute_hash (stored_data r') <> _compute_hash (stored_data r)) ->
  verify_integrity (with_record (appends calls) i r')
  = (false, hash_mismatch i).
Proof.
  intros Hi Hc Hr Hr' Hdigest.
  pose proof (linked_appends calls) as Hl.
  destruct (content_changed_keeps _ _ Hc) as [Hp Hh].
  assert (stored_data r' <> stored_data r) as Hdata.
  { intros Heq. apply (content_changed_fields _ _ Hc).
    pose proof (read_record_written r Hr) as Hread.
    rewrite <- Heq, (read_record_written r' Hr') in Hread. congruence. }
  rewrite (verify_integrity_replaced _ _ _ _ Hi), genesis_appends.
  rewrite (verify_replaced _ _ _ _ _ Hl Hi).
  rewrite bool_decide_eq_false_2 by (intros Hne; by apply Hne).
  rewrite bool_decide_eq_true_2; [done|].
  rewrite Hh, (linked_stored _ _ _ _ Hl Hi). intros Heq.
  by apply (Hdigest Hdata).
Qed.

End BmpTamper.

Section TamperDetection.
Context {digest : Sha256}.



End TamperDetection.


Lemma stored_data_injective_witness :
  exists r : ProofRecord,
    _records (appends (digest := identity_digest) example_calls) !! 1 = Some r
    /\ conclusion r = py "ACCEPTED".
Proof.
  eexists. split; [reflexivity|].
  match goal with
  | |- conclusion ?r = _ =>
      destruct (stored_data_injective r r) as (_ & _ & _ & Hc & _)
  end.
  - repeat split; try (apply bmp_checked; by vm_compute);
      repeat constructor; apply bmp_checked; by vm_compute.
  - repeat split; try (apply bmp_checked; by vm_compute);
      repeat constructor; apply bmp_checked; by vm_compute.
  - reflexivity.
  - reflexivity.
Defined.

Lemma bmp_tamper_detected_witness :
  exists r : ProofRecord,
    _records (appends (digest := identity_digest) example_calls) !! 1 = Some r
    /\ verify_integrity (digest := identity_digest)
         (with_record (appends (digest := identity_digest) example_calls) 1
                      (set_conclusion r (py "REFUSED")))
       = (false, hash_mismatch 1).
Proof.
  eexists. split; [reflexivity|].
  apply (bmp_tamper_detected (digest := identity_digest) example_calls 1 _ _
           eq_refl).
  - constructor. discriminate.
  - repeat split; try (apply bmp_checked; by vm_compute);
      repeat constructor; apply bmp_checked; by vm_compute.
  - repeat split; try (apply bmp_checked; by vm_compute);
      repeat constructor; apply bmp_checked; by vm_compute.
  - intros Hne. exact Hne.
Defined.

(** ** What a run never forgets *)
Section Monotone.
Context {digest : Sha256} {unicode : UnicodeData}.

Lemma step_history_prefix (self : FrankensteinCore) (c : Call) :
  _records (proof_ledger self) `prefix_of` _records (proof_ledger (step self c)).
Proof.
  destruct c as [now now_ledger command src| | |]; cbn [step]; try done.
  destruct (process_command_ledger self now now_ledger command src)
    as [ac ->].
  cbn. by apply prefix_app_r.
Qed.

Lemma step_knowledge (self : FrankensteinCore) (c : Call) (key : pystr) :
  is_Some (knowledge_base self !! key) ->
  is_Some (knowledge_base (step self c) !! key).
Proof.
  intros Hk. destruct c as [now now_ledger command src| | |]; cbn [step];
    try done.
  unfold knowledge_base in *.
  destruct (process_command_validator self now now_ledger command src)
    as [-> | [_ ->]]; [done|].
  unfold add_validated_fact. case_bool_decide; [done|].
  cbn [_established_facts]. apply lookup_insert_is_Some'. by right.
Qed.

(** X20. The ledger of a pipeline is append-only across any calls of its
    methods: the records held before the calls are, unchanged and in the
    same order, the first records held after them, so the history a caller
    has read stays a prefix of every later history. *)
Theorem history_is_append_only (self : FrankensteinCore) (calls : list Call) :
  _records (proof_ledger self)
    `prefix_of` _records (proof_ledger (run self calls))
  /\ get_proof_history self `prefix_of` get_proof_history (run self calls).
Proof.
  assert (_records (proof_ledger self)
            `prefix_of` _records (proof_ledger (run self calls))) as Hp.
  { revert self. induction calls as [|c calls IH]; intros self; [done|].
    cbn [run fold_left]. fold (run (step self c) calls).
    etrans; [apply step_history_prefix|apply IH]. }
  split; [done|]. unfold get_proof_history, get_records.
  destruct Hp as [k ->]. rewrite map_app. by apply prefix_app_r.
Qed.

(** X21. The knowledge base of a pipeline only grows: a key that has an
    entry keeps one across any calls of the pipeline's methods, so the
    three core facts are always present. *)
Theorem knowledge_base_grows (self : FrankensteinCore) (calls : list Call)
    (key : pystr) :
  is_Some (knowledge_base self !! key) ->
  is_Some (knowledge_base (run self calls) !! key).
Proof.
  revert self. induction calls as [|c calls IH]; intros self Hk; [done|].
  cbn [run fold_left]. fold (run (step self c) calls).
  apply IH. by apply step_knowledge.
Qed.

End Monotone.

Lemma knowledge_base_grows_witness :
  is_Some
    (knowledge_base
       (run (digest := identity_digest) (unicode := plain_unicode)
            (new_core (digest := identity_digest) (py "t0"))
            [call_process_command (py "t1") (py "t2") (py "5 + 5 = 10")
                                  (py "user")])
     !! py "cat_is_animal").
Proof.
  apply (knowledge_base_grows (digest := identity_digest)
           (unicode := plain_unicode)).
  eexists. reflexivity.
Defined.

(** ** What the ledger hashes *)

(** X22. Whatever code points the fields of a record hold, lone surrogates
    and characters beyond U+FFFF included, the text the ledger hashes for
    it is made of ASCII code points only, and so is the genesis label: the
    UTF-8 encoding [_compute_hash] asks for always exists, on [append] and
    on [verify_integrity]. *)
Theorem hashed_text_is_ascii (r : ProofRecord) (now : pystr)
    (premises inference_steps : list pystr) (conclusion : pystr)
    (counterexample prev_hash : option pystr) :
  ascii_only (stored_data r)
  /\ ascii_only (record_data now premises inference_steps conclusion
                             counterexample prev_hash)
  /\ ascii_only (py "GENESIS_FRANKENSTEIN_DIVINE_LOGIC").
Proof.
  split; [apply dumps_sorted_ascii|]. split; [apply dumps_sorted_ascii|].
  ascii_literal.
Qed.

(** ** The order in which the known propositions are read *)
Section AnyOrder.
Context {unicode : UnicodeData}.

Lemma direct_loop_none_perm (content_lower : pystr) (prop : Proposition)
    (known known' : list Proposition) :
  known ≡ₚ known' ->
  direct_loop content_lower prop known = None ->
  direct_loop content_lower prop known' = None.
Proof.
  intros Hperm. rewrite !direct_loop_none. intros Hall e He.
  apply Hall. by rewrite Hperm.
Qed.

(** X23. The decision of [add_proposition] does not depend on the order in
    which the set of known propositions is read. For two engines that
    differ only in that order, a contradiction is returned by one exactly
    when one is returned by the other, with the same kind and severity,
    and the same contradiction altogether unless it is a DIRECT one (which
    names one of the known propositions that negate the new one); the
    contradiction count and the validator afterwards are the same. *)
Theorem add_proposition_any_order (self : ContradictionEngine)
    (known' : list Proposition) (prop : Proposition) :
  _known_propositions self ≡ₚ known' ->
  let other := with_known self known' in
  (is_Some (snd (add_proposition self prop))
   <-> is_Some (snd (add_proposition other prop)))
  /\ (forall c c' : Contradiction,
        snd (add_proposition self prop) = Some c ->
        snd (add_proposition other prop) = Some c' ->
        type c' = type c /\ severity c' = severity c
        /\ (type c <> DIRECT -> c' = c))
  /\ _truth_validator (fst (add_proposition other prop))
     = _truth_validator (fst (add_proposition self prop))
  /\ get_contradiction_count (fst (add_proposition other prop))
     = get_contradiction_count (fst (add_proposition self prop)).
Proof.
  intros Hperm other.
  assert (_check_survival_violation other prop
          = _check_survival_violation self prop) as Hs by done.
  assert (match _check_direct_contradiction self prop,
                _check_direct_contradiction other prop with
          | Some d, Some d' =>
              type d = DIRECT /\ type d' = DIRECT
              /\ severity d = 1.0%Q /\ severity d' = 1.0%Q
          | None, None => True
          | _, _ => False
          end) as Hdirect.
  { unfold _check_direct_contradiction.
    cbn [other with_known _known_propositions].
    destruct (direct_loop _ prop (_known_propositions self)) as [d|] eqn:Hd;
      destruct (direct_loop _ prop known') as [d'|] eqn:Hd'; [|..|done].
    - apply direct_loop_some in Hd as (e & _ & _ & ->).
      by apply direct_loop_some in Hd' as (e' & _ & _ & ->).
    - apply (direct_loop_none_perm _ _ _ _ (symmetry Hperm)) in Hd'.
      congruence.
    - apply (direct_loop_none_perm _ _ _ _ Hperm) in Hd. congruence. }
  unfold add_proposition. rewrite Hs.
  destruct (_check_direct_contradiction self prop) as [d|];
    destruct (_check_direct_contradiction other prop) as [d'|];
    try done.
  - destruct Hdirect as (Ht & Ht' & Hv & Hv'). cbn [fst snd].
    split; [done|]. split.
    + intros c c' [= <-] [= <-]. rewrite Ht, Ht', Hv, Hv'. done.
    + split; [done|].
      unfold get_contradiction_count, len. cbn. by rewrite !length_app.
  - destruct (_check_survival_violation self prop) as [s|].
    { cbn [fst snd]. split; [done|]. split; [|done].
      by intros c c' [= <-] [= <-]. }
    unfold _check_truth_violation. cbn [other with_known _truth_validator].
    destruct (result (validate_statement _ _)); cbn [fst snd];
      (split; [done|]); (split; [|done]);
      try done; by intros c c' [= <-] [= <-].
Qed.

End AnyOrder.

Lemma add_proposition_any_order_witness :
  let builds :=
    proposition_of (unicode := plain_unicode) (py "t1")
                   (py "the company builds trust") (py "user") in
  let helps :=
    proposition_of (unicode := plain_unicode) (py "t2")
                   (py "the company helps people") (py "user") in
  let destroys :=
    proposition_of (unicode := plain_unicode) (py "t3")
                   (py "the company destroys trust") (py "user") in
  is_Some (snd (add_proposition (unicode := plain_unicode)
                  (with_known new_engine [helps; builds]) destroys)).
Proof.
  intros builds helps destroys.
  destruct (add_proposition_any_order (unicode := plain_unicode)
              (with_known new_engine [builds; helps]) [helps; builds] destroys)
    as (Hsome & _).
  - apply perm_swap.
  - apply Hsome. eexists. reflexivity.
Defined.
